(** * Product catalog service: the two [/api/products] routes of [src/app.js]

    A shallow embedding of the Express handlers [app.get('/api/products')]
    and [app.post('/api/products')], together with the parts of the
    JavaScript runtime they rely on (truthiness, [isNaN], [<], [parseFloat],
    [String.prototype.trim]), the Mongoose model [Product] and the Redis
    client.

    - Strings are sequences of UTF-16 code units and numbers are IEEE 754
      binary64 values, so that [" "], ["0x10"], [-0] or [NaN] behave as
      they do in the runtime.
    - A handler is a computation in a state-and-exception monad over the
      state of the two backends.  Every round trip to a backend is logged,
      so that "the store is not queried" is a statement about the log.
    - What the backends answer is decided outside: an environment says,
      for each kind of round trip, whether it fails and with which error.
    - A request runs from start to end without another one in between. *)

From Stdlib Require Import ZArith NArith List Bool Lia String Ascii.
From Stdlib Require Import Floats.SpecFloat.
From stdpp Require Import base option list gmap.
Import ListNotations.

Local Open Scope Z_scope.
#[local] Set Warnings "-clear-no-such-hyp".

(** ** JavaScript strings *)

(** A JavaScript string is a sequence of UTF-16 code units. *)
Definition jsstring := list N.

(** String literals of the source, all of them ASCII. *)
Definition js (s : string) : jsstring :=
  map N_of_ascii (list_ascii_of_string s).
Arguments js : simpl never.

(** [WhiteSpace] and [LineTerminator] code points of ECMA-262: the
    characters removed by [trim] and skipped by numeric conversions. *)
Definition is_white_space (c : N) : bool :=
  ((c =? 0x9) || (c =? 0xA) || (c =? 0xB) || (c =? 0xC) || (c =? 0xD)
   || (c =? 0x20) || (c =? 0xA0) || (c =? 0x1680)
   || ((0x2000 <=? c) && (c <=? 0x200A))
   || (c =? 0x2028) || (c =? 0x2029) || (c =? 0x202F) || (c =? 0x205F)
   || (c =? 0x3000) || (c =? 0xFEFF))%N.

Fixpoint trim_start (s : jsstring) : jsstring :=
  match s with
  | c :: s' => if is_white_space c then trim_start s' else s
  | [] => []
  end.

Definition trim_end (s : jsstring) : jsstring := rev (trim_start (rev s)).

(** [String.prototype.trim]. *)
Definition trim (s : jsstring) : jsstring := trim_end (trim_start s).
Arguments trim : simpl never.

Fixpoint strip_prefix (p s : jsstring) : option jsstring :=
  match p, s with
  | [], _ => Some s
  | a :: p', b :: s' => if (a =? b)%N then strip_prefix p' s' else None
  | _ :: _, [] => None
  end.

(** ** JavaScript numbers: IEEE 754 binary64 *)

Definition number := spec_float.
Definition prec : Z := 53.
Definition emax : Z := 1024.

Definition NaN : number := S754_nan.
Definition zero : number := S754_zero false.

(** The Number value for an integer. *)
Definition number_of_Z (z : Z) : number := binary_normalize prec emax z 0 false.

(** The Number value nearest to [m * 10^e10], ties to even, with the sign
    given apart so that a literal such as [-0] keeps it. *)
Definition decimal_to_number (neg : bool) (m e10 : Z) : number :=
  match m with
  | Zpos p =>
      if 0 <=? e10 then binary_round prec emax neg (p * Z.to_pos (10 ^ e10)) 0
      else SFdiv prec emax (S754_finite neg p 0)
                           (S754_finite false (Z.to_pos (10 ^ (- e10))) 0)
  | _ => S754_zero neg
  end.

Definition number_isNaN (n : number) : bool :=
  match n with S754_nan => true | _ => false end.

Definition number_lt (a b : number) : bool := SFltb a b.
Definition number_le (a b : number) : bool := SFleb a b.

(** *** Numeric literals in strings *)

Definition decimal_digit (c : N) : option Z :=
  if ((48 <=? c) && (c <=? 57))%N then Some (Z.of_N (c - 48)) else None.

Definition hex_digit (c : N) : option Z :=
  if ((48 <=? c) && (c <=? 57))%N then Some (Z.of_N (c - 48))
  else if ((97 <=? c) && (c <=? 102))%N then Some (Z.of_N (c - 87))
  else if ((65 <=? c) && (c <=? 70))%N then Some (Z.of_N (c - 55))
  else None.

Definition octal_digit (c : N) : option Z :=
  if ((48 <=? c) && (c <=? 55))%N then Some (Z.of_N (c - 48)) else None.

Definition binary_digit (c : N) : option Z :=
  if ((48 <=? c) && (c <=? 49))%N then Some (Z.of_N (c - 48)) else None.

(** The longest run of digits at the head of [s]: its value on top of
    [acc], the number of digits added to [n], and what follows. *)
Fixpoint scan_digits (radix : Z) (digit : N -> option Z) (acc n : Z)
    (s : jsstring) : Z * Z * jsstring :=
  match s with
  | c :: s' =>
      match digit c with
      | Some d => scan_digits radix digit (acc * radix + d) (n + 1) s'
      | None => (acc, n, s)
      end
  | [] => (acc, n, [])
  end.

(** An [ExponentPart] at the head of [s], when there is a complete one. *)
Definition scan_exponent (s : jsstring) : Z * jsstring :=
  match s with
  | c :: s1 =>
      if ((c =? 101) || (c =? 69))%N then
        let '(neg, s2) :=
          match s1 with
          | d :: t => if (d =? 43)%N then (false, t)
                      else if (d =? 45)%N then (true, t) else (false, s1)
          | [] => (false, s1)
          end in
        let '(v, n, rest) := scan_digits 10 decimal_digit 0 0 s2 in
        if n =? 0 then (0, s) else (if neg then - v else v, rest)
      else (0, s)
  | [] => (0, s)
  end.

(** The longest prefix of [s] that is a [StrUnsignedDecimalLiteral] other
    than [Infinity]: its digits as an integer, the power of ten that
    scales them, and the rest of [s]. *)
Definition scan_unsigned_decimal (s : jsstring) : option (Z * Z * jsstring) :=
  let '(i, ni, s1) := scan_digits 10 decimal_digit 0 0 s in
  let '(m, nf, s2) :=
    match s1 with
    | c :: t => if (c =? 46)%N then scan_digits 10 decimal_digit i 0 t
                else (i, 0, s1)
    | [] => (i, 0, s1)
    end in
  if (ni =? 0) && (nf =? 0) then None
  else let '(e, rest) := scan_exponent s2 in Some (m, e - nf, rest).

(** The longest prefix of [s] that is a [StrDecimalLiteral]. *)
Definition scan_decimal_literal (s : jsstring) : option (number * jsstring) :=
  let '(neg, s1) :=
    match s with
    | c :: t => if (c =? 43)%N then (false, t)
                else if (c =? 45)%N then (true, t) else (false, s)
    | [] => (false, s)
    end in
  match strip_prefix (js "Infinity") s1 with
  | Some rest => Some (S754_infinity neg, rest)
  | None =>
      match scan_unsigned_decimal s1 with
      | Some (m, e, rest) => Some (decimal_to_number neg m e, rest)
      | None => None
      end
  end.

(** A whole [NonDecimalIntegerLiteral]: [0x], [0o] or [0b] and digits. *)
Definition scan_non_decimal (s : jsstring) : option number :=
  match s with
  | z :: c :: t =>
      let digits :=
        if ((c =? 120) || (c =? 88))%N then Some (16, hex_digit)
        else if ((c =? 111) || (c =? 79))%N then Some (8, octal_digit)
        else if ((c =? 98) || (c =? 66))%N then Some (2, binary_digit)
        else None in
      match digits with
      | Some (radix, digit) =>
          if (z =? 48)%N then
            match scan_digits radix digit 0 0 t with
            | (v, n, []) => if 0 <? n then Some (number_of_Z v) else None
            | _ => None
            end
          else None
      | None => None
      end
  | _ => None
  end.

(** [StringToNumber] of ECMA-262: the conversion behind [Number(s)],
    [isNaN(s)] and [s < 0]. *)
Definition StringToNumber (s : jsstring) : number :=
  match trim s with
  | [] => zero
  | t =>
      match scan_non_decimal t with
      | Some n => n
      | None =>
          match scan_decimal_literal t with
          | Some (n, []) => n
          | _ => NaN
          end
      end
  end.

(** [parseFloat] on a string. *)
Definition parseFloat_string (s : jsstring) : number :=
  match scan_decimal_literal (trim_start s) with
  | Some (n, _) => n
  | None => NaN
  end.

(** ** Values of a request body *)

(** [req.body] is produced by [express.json] or [express.urlencoded], so a
    field is absent ([VUndefined]), a JSON scalar, or an array or object.
    Of an array or object the handlers only observe that it is truthy, that
    it has no [trim] method, and what [ToPrimitive] makes of it: a string
    (the elements joined by commas, [[object Object]]), or a [TypeError]
    when an own [toString] member hides the inherited method. *)
Inductive value :=
  | VUndefined
  | VNull
  | VBoolean (b : bool)
  | VNumber (n : number)
  | VString (s : jsstring)
  | VObject (primitive : option jsstring).

(** Thrown values: the handlers read [name], [code] and [message]. *)
Record Error := {
  err_name : jsstring;
  err_code : option Z;
  err_message : jsstring
}.

Inductive Completion (A : Type) :=
  | Normal (a : A)
  | Throw (e : Error).
Arguments Normal {A} a.
Arguments Throw {A} e.

Definition TypeError (message : jsstring) : Error :=
  {| err_name := js "TypeError"; err_code := None; err_message := message |}.

(** [ToBoolean]: what [!v] and [v ? a : b] test. *)
Definition ToBoolean (v : value) : bool :=
  match v with
  | VUndefined | VNull => false
  | VBoolean b => b
  | VNumber (S754_zero _) | VNumber S754_nan => false
  | VNumber _ => true
  | VString [] => false
  | VString _ => true
  | VObject _ => true
  end.

Definition ToPrimitive (primitive : option jsstring) : Completion jsstring :=
  match primitive with
  | Some s => Normal s
  | None => Throw (TypeError (js "Cannot convert object to primitive value"))
  end.

Definition ToNumber (v : value) : Completion number :=
  match v with
  | VUndefined => Normal NaN
  | VNull => Normal zero
  | VBoolean b => Normal (if b then number_of_Z 1 else zero)
  | VNumber n => Normal n
  | VString s => Normal (StringToNumber s)
  | VObject p =>
      match ToPrimitive p with
      | Normal s => Normal (StringToNumber s)
      | Throw e => Throw e
      end
  end.

(** The global [isNaN(v)]. *)
Definition isNaN (v : value) : Completion bool :=
  match ToNumber v with
  | Normal n => Normal (number_isNaN n)
  | Throw e => Throw e
  end.

(** [v < 0]: the right operand is a Number, so the comparison is numeric
    and is false when [v] converts to [NaN]. *)
Definition lt_zero (v : value) : Completion bool :=
  match ToNumber v with
  | Normal n => Normal (number_lt n zero)
  | Throw e => Throw e
  end.

(** The global [parseFloat(v)], which reads a number off [ToString(v)].
    For a Number [n] that string is the shortest decimal that converts
    back to [n], so [n] itself comes back, with [-0] printed as [0]. *)
Definition parseFloat (v : value) : Completion number :=
  match v with
  | VUndefined => Normal (parseFloat_string (js "undefined"))
  | VNull => Normal (parseFloat_string (js "null"))
  | VBoolean b => Normal (parseFloat_string (js (if b then "true" else "false")))
  | VNumber (S754_zero _) => Normal zero
  | VNumber n => Normal n
  | VString s => Normal (parseFloat_string s)
  | VObject p =>
      match ToPrimitive p with
      | Normal s => Normal (parseFloat_string s)
      | Throw e => Throw e
      end
  end.

(** [v.trim()] for the body field called [field] in the source. *)
Definition call_trim (field : string) (v : value) : Completion jsstring :=
  match v with
  | VString s => Normal (trim s)
  | _ => Throw (TypeError (js field ++ js ".trim is not a function"))
  end.

(** ** Documents, responses and the runtime's JSON codec *)

Definition ObjectId := N.

(** A document of the [products] collection, as [productSchema] shapes it. *)
Record Product := {
  _id : ObjectId;
  name : jsstring;
  price : number;
  description : jsstring
}.

#[warnings="-register-all"]
Inductive json :=
  | JNull
  | JBool (b : bool)
  | JNum (n : number)
  | JStr (s : jsstring)
  | JArr (items : list json)
  | JObj (members : list (jsstring * json)).

(** [JSON.stringify] on an array of documents and [JSON.parse] on a string
    (which throws a [SyntaxError] on text that is not JSON) belong to the
    runtime; the handlers are defined, and every theorem is proved, for any
    such pair of functions. *)
Class JSON := {
  JSON_stringify : list Product -> jsstring;
  JSON_parse : jsstring -> Completion json
}.

(** The [data] member of a success body. *)
Inductive Data :=
  | Documents (docs : list Product)
  | Parsed (v : json)
  | Document (doc : Product).

(** The two shapes of body the routes send:
    [{success: true, data, message}] and [{success: false, error}]. *)
Inductive Body :=
  | Success (data : Data) (message : jsstring)
  | Failure (error : jsstring).

Record Response := { status : Z; body : Body }.

(** [res.status(code).json(body)]; [res.json(body)] is [json 200 body]. *)
Definition json_response (code : Z) (b : Body) : Response :=
  {| status := code; body := b |}.

(** ** The two backends *)

(** A Redis key holds a string and, when it was set with [EX], a time to
    live in seconds. *)
Record Entry := { entry_value : jsstring; entry_EX : option Z }.

Record RedisClient := { isReady : bool }.

(** What a request can read and change: the [products] collection in
    MongoDB, the module variable [redisClient] ([None] stands for
    [undefined] and [null]) and the keys of the Redis server. *)
Record World := {
  products : list Product;
  redisClient : option RedisClient;
  redis : gmap jsstring Entry
}.

(** What the outside decides during one request: the identifier the driver
    generates for a new document, and for each kind of round trip the error
    it fails with, if it fails.  A handler makes each kind of round trip at
    most once. *)
Record Env := {
  new_ObjectId : ObjectId;
  find_error : option Error;
  save_error : option Error;
  get_error : option Error;
  set_error : option Error
}.

(** Round trips to the backends, logged in the order they are made. *)
Inductive Call :=
  | MongoFind
  | MongoInsert (doc : Product)
  | RedisGet (key : jsstring)
  | RedisSet (key value : jsstring) (EX : Z).

(** ** Handler monad: state, exceptions and the log of round trips *)

Definition M (A : Type) : Type := World -> Completion A * World * list Call.

Definition ret {A} (a : A) : M A := fun w => (Normal a, w, []).

Definition bind {A B} (m : M A) (k : A -> M B) : M B := fun w =>
  match m w with
  | (Normal a, w', l) => let '(r, w'', l') := k a w' in (r, w'', l ++ l')
  | (Throw e, w', l) => (Throw e, w', l)
  end.

(** [try { body } catch (error) { handler }]. *)
Definition try_catch {A} (body : M A) (handler : Error -> M A) : M A := fun w =>
  match body w with
  | (Normal a, w', l) => (Normal a, w', l)
  | (Throw e, w', l) => let '(r, w'', l') := handler e w' in (r, w'', l ++ l')
  end.

Definition lift {A} (c : Completion A) : M A := fun w => (c, w, []).

Notation "x <- m ;; k" := (bind m (fun x => k))
  (at level 90, m at next level, right associativity).
Notation "m ;;; k" := (bind m (fun _ => k))
  (at level 90, right associativity).

(** [redisClient && redisClient.isReady]. *)
Definition redis_ready (w : World) : bool :=
  match redisClient w with
  | Some c => isReady c
  | None => false
  end.

Definition redis_available : M bool := fun w => (Normal (redis_ready w), w, []).

(** [redisClient.get(key)]. *)
Definition redisClient_get (env : Env) (key : jsstring) : M (option jsstring) := fun w =>
  match get_error env with
  | Some e => (Throw e, w, [RedisGet key])
  | None => (Normal (entry_value <$> (redis w !! key)), w, [RedisGet key])
  end.

(** [redisClient.set(key, value, { EX })]. *)
Definition redisClient_set (env : Env) (key value : jsstring) (EX : Z) : M unit := fun w =>
  match set_error env with
  | Some e => (Throw e, w, [RedisSet key value EX])
  | None =>
      (Normal tt,
       {| products := products w;
          redisClient := redisClient w;
          redis := <[key := {| entry_value := value; entry_EX := Some EX |}]> (redis w) |},
       [RedisSet key value EX])
  end.

(** [Product.find({})]: every document of the collection. *)
Definition Product_find (env : Env) : M (list Product) := fun w =>
  match find_error env with
  | Some e => (Throw e, w, [MongoFind])
  | None => (Normal (products w), w, [MongoFind])
  end.

Definition quoted (s : jsstring) : jsstring := [34%N] ++ s ++ [34%N].

(** The rejection of [save] for a document whose [price] could not be cast:
    Mongoose's Number cast refuses [NaN], and validation then fails before
    anything is sent to the server. *)
Definition price_cast_error : Error :=
  {| err_name := js "ValidationError";
     err_code := None;
     err_message :=
       js "Product validation failed: price: Cast to Number failed for value "
       ++ quoted (js "NaN") ++ js " (type number) at path " ++ quoted (js "price") |}.

(** [new Product({ name, price, description }).save()]. *)
Definition Product_save (env : Env) (nm : jsstring) (pr : number) (desc : jsstring)
    : M Product := fun w =>
  if number_isNaN pr then (Throw price_cast_error, w, [])
  else
    let doc := {| _id := new_ObjectId env; name := nm; price := pr; description := desc |} in
    match save_error env with
    | Some e => (Throw e, w, [MongoInsert doc])
    | None =>
        (Normal doc,
         {| products := products w ++ [doc];
            redisClient := redisClient w;
            redis := redis w |},
         [MongoInsert doc])
    end.

(** ** The routes *)

Definition cacheKey : jsstring := js "products".

(** The request body after [const { name, price, description } = req.body]. *)
Record CreateBody := {
  body_name : value;
  body_price : value;
  body_description : value
}.

Section Routes.
Context `{JSON}.

(** [app.get('/api/products', ...)]. *)
Definition get_products (env : Env) : M Response :=
  try_catch
    (ready <- redis_available;;
     cachedProducts <-
       (if ready
        then try_catch (redisClient_get env cacheKey) (fun _ => ret None)
        else ret None);;
     match cachedProducts with
     | Some (c :: s) =>
         data <- lift (JSON_parse (c :: s));;
         ret (json_response 200
                (Success (Parsed data) (js "Products retrieved from cache")))
     | _ =>
         products <- Product_find env;;
         ready' <- redis_available;;
         (if ready' && (0 <? Z.of_nat (length products))
          then try_catch
                 (redisClient_set env cacheKey (JSON_stringify products) 3600)
                 (fun _ => ret tt)
          else ret tt);;;
         ret (json_response 200
                (Success (Documents products) (js "Products retrieved successfully")))
     end)
    (fun error => ret (json_response 500 (Failure (err_message error)))).

(** [app.post('/api/products', ...)]. *)
Definition post_products (env : Env) (req : CreateBody) : M Response :=
  try_catch
    (let name := body_name req in
     let price := body_price req in
     let description := body_description req in
     if negb (ToBoolean name) || negb (ToBoolean price) then
       ret (json_response 400 (Failure (js "Name and price are required fields")))
     else
       not_a_number <- lift (isNaN price);;
       invalid <- (if not_a_number then ret true else lift (lt_zero price));;
       if invalid then
         ret (json_response 400 (Failure (js "Price must be a valid positive number")))
       else
         nm <- lift (call_trim "name" name);;
         pr <- lift (parseFloat price);;
         desc <- (if ToBoolean description
                  then lift (call_trim "description" description)
                  else ret []);;
         savedProduct <- Product_save env nm pr desc;;
         ready <- redis_available;;
         (if ready
          then try_catch
                 (allProducts <- Product_find env;;
                  redisClient_set env cacheKey (JSON_stringify allProducts) 3600)
                 (fun _ => ret tt)
          else ret tt);;;
         ret (json_response 201
                (Success (Document savedProduct) (js "Product created successfully"))))
    (fun error =>
       if decide (err_name error = js "ValidationError") then
         ret (json_response 400
                (Failure (js "Validation error: " ++ err_message error)))
       else if decide (err_code error = Some 11000) then
         ret (json_response 409 (Failure (js "Product with this name already exists")))
       else ret (json_response 500 (Failure (err_message error)))).

End Routes.

(** ** Runs and histories *)

(** The three components of a run: what the handler completed with, the
    state it left, and the round trips it made. *)
Definition result {A} (r : Completion A * World * list Call) : Completion A := r.1.1.
Definition final {A} (r : Completion A * World * list Call) : World := r.1.2.
Definition calls {A} (r : Completion A * World * list Call) : list Call := r.2.

Inductive Request :=
  | GET
  | POST (req : CreateBody).

Definition handle `{JSON} (env : Env) (r : Request) : M Response :=
  match r with
  | GET => get_products env
  | POST req => post_products env req
  end.

(** What happens to the state between the start of the server and a given
    moment: requests are served one after the other, the Redis client
    connects, disconnects or is given up, and the listing key reaches its
    time to live. *)
Inductive Event :=
  | Served (env : Env) (r : Request)
  | ClientBecomes (c : option RedisClient)
  | Expired.

Definition step `{JSON} (w : World) (ev : Event) : World :=
  match ev with
  | Served env r => final (handle env r w)
  | ClientBecomes c =>
      {| products := products w; redisClient := c; redis := redis w |}
  | Expired =>
      {| products := products w;
         redisClient := redisClient w;
         redis := delete cacheKey (redis w) |}
  end.

Definition after `{JSON} (history : list Event) (w : World) : World :=
  fold_left step history w.

(** The entry under the listing key, if there is one, is the serialization
    of the whole collection as one [find] returned it: of the collection as
    it stood at some moment, hence of an initial segment of the present
    one, since documents are only ever appended. *)
Definition cache_is_snapshot `{JSON} (w : World) : Prop :=
  forall e, redis w !! cacheKey = Some e ->
    exists docs, entry_value e = JSON_stringify docs
                 /\ entry_EX e = Some 3600
                 /\ docs `prefix_of` products w.

Definition is_MongoFind (c : Call) : bool :=
  match c with MongoFind => true | _ => false end.

(** How many times a run queried the collection. *)
Definition finds (l : list Call) : nat := length (List.filter is_MongoFind l).

(** The store operation a request is there for: the read of a listing, the
    insert of a create; and the error the outside makes it fail with. *)
Definition is_store_operation (r : Request) (c : Call) : bool :=
  match r, c with
  | GET, MongoFind => true
  | POST _, MongoInsert _ => true
  | _, _ => false
  end.

Definition store_error (env : Env) (r : Request) : option Error :=
  match r with
  | GET => find_error env
  | POST _ => save_error env
  end.

(** ** Documents in good order *)

(** A string with no white space at either end: what [trim] returns. *)
Definition tidy (s : jsstring) : bool :=
  match s with
  | [] => true
  | c :: _ => negb (is_white_space c) && negb (is_white_space (List.last s c))
  end.

(** A code unit at which a numeric literal ends: not a digit, a point, an
    exponent mark or a sign, and none of the letters of [Infinity]. *)
Definition ends_literal (c : N) : bool :=
  match decimal_digit c with
  | Some _ => false
  | None =>
      negb ((c =? 46) || (c =? 101) || (c =? 69) || (c =? 43) || (c =? 45)
            || existsb (N.eqb c) (js "Infinity"))%N
  end.

Definition is_redis_call (c : Call) : bool :=
  match c with
  | RedisGet _ | RedisSet _ _ _ => true
  | MongoFind | MongoInsert _ => false
  end.

Definition is_MongoInsert (c : Call) : bool :=
  match c with MongoInsert _ => true | _ => false end.

(** A document as the create route writes it: no white space at either end
    of the name and of the description, and a price that is a number not
    below zero. *)
Definition in_good_order (doc : Product) : bool :=
  tidy (name doc) && tidy (description doc) && number_le zero (price doc).

(** [signed sx x]: [x] is a zero, a finite number or an infinity of sign
    [sx], and in particular not [NaN]. *)
Definition signed (sx : bool) (x : number) : Prop :=
  match x with
  | S754_nan => False
  | S754_zero s | S754_infinity s | S754_finite s _ _ => s = sx
  end.

(** ** The routes as decision trees *)

(** The two handlers once more, with the monad unfolded: which response,
    which state and which round trips for which answers of the outside.
    They are shown equal to [get_products] and [post_products] below, and
    serve to reason by cases. *)

Definition created (doc : Product) : Response :=
  json_response 201 (Success (Document doc) (js "Product created successfully")).

Definition listed (docs : list Product) : Response :=
  json_response 200 (Success (Documents docs) (js "Products retrieved successfully")).

Definition failed (code : Z) (message : string) : Response :=
  json_response code (Failure (js message)).

(** The [catch] block of the create route. *)
Definition catch_create (error : Error) : Response :=
  if decide (err_name error = js "ValidationError") then
    json_response 400 (Failure (js "Validation error: " ++ err_message error))
  else if decide (err_code error = Some 11000) then
    failed 409 "Product with this name already exists"
  else json_response 500 (Failure (err_message error)).

Definition add_document (doc : Product) (w : World) : World :=
  {| products := products w ++ [doc];
     redisClient := redisClient w;
     redis := redis w |}.

Definition cache_listing `{JSON} (docs : list Product) (w : World) : World :=
  {| products := products w;
     redisClient := redisClient w;
     redis := <[cacheKey := {| entry_value := JSON_stringify docs;
                               entry_EX := Some 3600 |}]> (redis w) |}.

(** What the create route makes of a body before it turns to the store. *)
Inductive Checked :=
  | Refused (r : Response)
  | Accepted (nm : jsstring) (pr : number) (desc : jsstring).

Definition check (req : CreateBody) : Completion Checked :=
  let name := body_name req in
  let price := body_price req in
  let description := body_description req in
  if negb (ToBoolean name) || negb (ToBoolean price) then
    Normal (Refused (failed 400 "Name and price are required fields"))
  else
    match isNaN price with
    | Throw e => Throw e
    | Normal not_a_number =>
        match (if not_a_number then Normal true else lt_zero price) with
        | Throw e => Throw e
        | Normal true =>
            Normal (Refused (failed 400 "Price must be a valid positive number"))
        | Normal false =>
            match call_trim "name" name with
            | Throw e => Throw e
            | Normal nm =>
                match parseFloat price with
                | Throw e => Throw e
                | Normal pr =>
                    match (if ToBoolean description
                           then call_trim "description" description
                           else Normal []) with
                    | Throw e => Throw e
                    | Normal desc => Normal (Accepted nm pr desc)
                    end
                end
            end
        end
    end.

(** The create route from [save] on. *)
Definition persist `{JSON} (env : Env) (nm : jsstring) (pr : number) (desc : jsstring)
    (w : World) : Completion Response * World * list Call :=
  if number_isNaN pr then (Normal (catch_create price_cast_error), w, [])
  else
    let doc := {| _id := new_ObjectId env; name := nm; price := pr; description := desc |} in
    match save_error env with
    | Some e => (Normal (catch_create e), w, [MongoInsert doc])
    | None =>
        let w1 := add_document doc w in
        if redis_ready w then
          match find_error env with
          | Some _ => (Normal (created doc), w1, [MongoInsert doc; MongoFind])
          | None =>
              let value := JSON_stringify (products w1) in
              (Normal (created doc),
               match set_error env with
               | Some _ => w1
               | None => cache_listing (products w1) w1
               end,
               [MongoInsert doc; MongoFind; RedisSet cacheKey value 3600])
          end
        else (Normal (created doc), w1, [MongoInsert doc])
    end.

Definition post_products_tree `{JSON} (env : Env) (req : CreateBody) (w : World)
    : Completion Response * World * list Call :=
  match check req with
  | Normal (Refused r) => (Normal r, w, [])
  | Throw e => (Normal (catch_create e), w, [])
  | Normal (Accepted nm pr desc) => persist env nm pr desc w
  end.

(** What the list route finds in the cache: nothing when the client is not
    ready, when the read fails or when the key is not there. *)
Definition cache_lookup (env : Env) (w : World) : option jsstring :=
  if redis_ready w then
    match get_error env with
    | Some _ => None
    | None => entry_value <$> (redis w !! cacheKey)
    end
  else None.

Definition lookup_calls (w : World) : list Call :=
  if redis_ready w then [RedisGet cacheKey] else [].

(** The response to a listing that found [payload] in the cache. *)
Definition serve_cached `{JSON} (payload : jsstring) : Response :=
  match JSON_parse payload with
  | Normal v =>
      json_response 200 (Success (Parsed v) (js "Products retrieved from cache"))
  | Throw e => json_response 500 (Failure (err_message e))
  end.

(** The same state with other keys in Redis. *)
Definition with_keys (keys : gmap jsstring Entry) (w : World) : World :=
  {| products := products w; redisClient := redisClient w; redis := keys |}.

Definition get_products_tree `{JSON} (env : Env) (w : World)
    : Completion Response * World * list Call :=
  match cache_lookup env w with
  | Some (c :: s) => (Normal (serve_cached (c :: s)), w, lookup_calls w)
  | _ =>
      match find_error env with
      | Some e =>
          (Normal (json_response 500 (Failure (err_message e))), w,
           lookup_calls w ++ [MongoFind])
      | None =>
          if redis_ready w && (0 <? Z.of_nat (length (products w))) then
            (Normal (listed (products w)),
             match set_error env with
             | Some _ => w
             | None => cache_listing (products w) w
             end,
             lookup_calls w
             ++ [MongoFind; RedisSet cacheKey (JSON_stringify (products w)) 3600])
          else (Normal (listed (products w)), w, lookup_calls w ++ [MongoFind])
      end
  end.

(** ** Start of the process *)

(** [reconnectStrategy: (retries) => Math.min(retries * 50, 1000)], on the
    count of attempts the client passes.  The count is an integer, on which
    the product is exact as long as it matters: once it is rounded it is far
    above 1000. *)
Definition reconnectStrategy (retries : Z) : Z := Z.min (retries * 50) 1000.

(** How the [try] block of [connectRedis] turns out.  [reconnectStrategy]
    returns a delay for every count, so the client tries again after every
    attempt that fails and [client.connect()] stays pending until one goes
    through: against a server that cannot be reached it never settles.
    What the [catch] block sees is an error thrown before any attempt, such
    as [createClient] refusing the URL. *)
Inductive ClientStart :=
  | Resolved
  | Thrown (e : Error)
  | Pending.

(** What the outside decides when the process starts: how the two
    connections turn out and what the environment holds. *)
Record Boot := {
  mongoose_connect : option Error;
  client_connect : ClientStart;
  env_PORT : option jsstring
}.

(** [Waiting]: the process is up and [await connectRedis()] has not
    returned; [app.listen] has not been called and no request is served. *)
Inductive Process :=
  | Exited (code : Z)
  | Waiting
  | Listening (port : value) (w : World).

(** [process.env.PORT || 3000]. *)
Definition PORT (b : Boot) : value :=
  match env_PORT b with
  | Some (c :: s) => VString (c :: s)
  | _ => VNumber (number_of_Z 3000)
  end.

(** [connectMongoDB]: the exit code when the connection fails. *)
Definition connectMongoDB (b : Boot) : option Z :=
  match mongoose_connect b with
  | Some _ => Some 1
  | None => None
  end.

(** [connectRedis]: the only place where [redisClient] is assigned.  The
    state it returns with, or [None] when it does not return. *)
Definition connectRedis (b : Boot) (w : World) : option World :=
  match client_connect b with
  | Resolved =>
      Some {| products := products w;
              redisClient := Some {| isReady := true |};
              redis := redis w |}
  | Thrown _ =>
      Some {| products := products w; redisClient := None; redis := redis w |}
  | Pending => None
  end.

(** [startServer], the port being free: [w] holds what the two backends
    contain at that time. *)
Definition startServer (b : Boot) (w : World) : Process :=
  match connectMongoDB b with
  | Some code => Exited code
  | None =>
      match connectRedis b w with
      | Some w0 => Listening (PORT b) w0
      | None => Waiting
      end
  end.

(** What happens while the server listens.  [redisClient] is not assigned
    again: the client it holds, if any, loses and finds its connection. *)
Inductive Happening :=
  | Incoming (env : Env) (r : Request)
  | Connection (up : bool)
  | KeyExpiry.

Definition event_at (w : World) (h : Happening) : Event :=
  match h with
  | Incoming env r => Served env r
  | Connection up =>
      ClientBecomes
        match redisClient w with
        | Some _ => Some {| isReady := up |}
        | None => None
        end
  | KeyExpiry => Expired
  end.

(** The state after a list of happenings and the round trips the requests
    among them made, in order. *)
Fixpoint serve `{JSON} (hs : list Happening) (w : World) : World * list Call :=
  match hs with
  | [] => (w, [])
  | h :: hs' =>
      let made :=
        match h with
        | Incoming env r => calls (handle env r w)
        | _ => []
        end in
      let '(w', l) := serve hs' (step w (event_at w h)) in
      (w', made ++ l)
  end.

(** ** Sample states and requests *)

Definition quiet (id : ObjectId) : Env :=
  {| new_ObjectId := id;
     find_error := None; save_error := None;
     get_error := None; set_error := None |}.

(** A store that cannot be reached while reading. *)
Definition outage : Error :=
  {| err_name := js "MongoNetworkError";
     err_code := None;
     err_message := js "connection timed out" |}.

Definition find_fails (id : ObjectId) : Env :=
  {| new_ObjectId := id;
     find_error := Some outage; save_error := None;
     get_error := None; set_error := None |}.

Definition one : number := number_of_Z 1.
Definition minus_one : number := number_of_Z (-1).

Definition create (nm : jsstring) (pr : value) : CreateBody :=
  {| body_name := VString nm; body_price := pr; body_description := VUndefined |}.

(** An empty collection and no Redis client. *)
Definition bare : World :=
  {| products := []; redisClient := None; redis := ∅ |}.

Definition widget : Product :=
  {| _id := 1%N; name := js "Widget"; price := one; description := [] |}.

(** One document, a client that lost its connection, a stale entry. *)
Definition offline : World :=
  {| products := [widget];
     redisClient := Some {| isReady := false |};
     redis := {[ cacheKey := {| entry_value := js "[]"; entry_EX := Some 3600 |} ]} |}.

(** One document, a ready client, and a given string under the listing key. *)
Definition cached (payload : jsstring) : World :=
  {| products := [widget];
     redisClient := Some {| isReady := true |};
     redis := {[ cacheKey := {| entry_value := payload; entry_EX := Some 3600 |} ]} |}.

(** The server's answer to a second document with a key that must be
    unique. *)
Definition duplicate_key : Error :=
  {| err_name := js "MongoServerError";
     err_code := Some 11000;
     err_message := js "E11000 duplicate key error" |}.

Definition insert_fails (id : ObjectId) (e : Error) : Env :=
  {| new_ObjectId := id;
     find_error := None; save_error := Some e;
     get_error := None; set_error := None |}.

Definition SyntaxError : Error :=
  {| err_name := js "SyntaxError"; err_code := None;
     err_message := js "Unexpected token" |}.

(** A codec to run the examples with, in place of the runtime's: it writes
    the names of the documents between brackets, and it reads a text that
    opens with a bracket as a string and refuses any other. *)
Definition names_only : JSON :=
  {| JSON_stringify := fun docs =>
       js "[" ++ concat (map (fun doc => name doc ++ js ";") docs) ++ js "]";
     JSON_parse := fun s =>
       match s with
       | 91%N :: _ => Normal (JStr s)
       | _ => Throw SyntaxError
       end |}.

(** One document, a ready client, and text that is not JSON under the
    listing key. *)
Definition corrupt : World := cached (js "<html>").

(** ** Case analysis on a run *)

Ltac run_handler :=
  unfold handle, get_products, post_products, try_catch, bind, lift, ret,
    redis_available, redisClient_get, redisClient_set, Product_find, Product_save,
    result, final, calls in *.

Ltac all_cases := repeat (case_match; simplify_eq/=; try done).

(** ** Facts about the runtime *)

Lemma positive_number (p : number) :
  number_lt zero p = true ->
  ToBoolean (VNumber p) = true
  /\ isNaN (VNumber p) = Normal false
  /\ lt_zero (VNumber p) = Normal false
  /\ parseFloat (VNumber p) = Normal p
  /\ number_isNaN p = false.
Proof.
  destruct p as [s | s | | s m e]; cbn; try discriminate.
  - destruct s; [discriminate | auto].
  - destruct s; [discriminate | auto].
Qed.

(** Numeric conversions on a few strings: [Number(s)] and [parseFloat(s)]. *)
Example conversions :
  StringToNumber (js "9.99") = S754_finite false 5623870034678907 (-49)
  /\ parseFloat_string (js "9.99 each") = S754_finite false 5623870034678907 (-49)
  /\ StringToNumber (js "9.99 each") = NaN
  /\ StringToNumber (js " 1e3 ") = number_of_Z 1000
  /\ StringToNumber (js "0x10") = number_of_Z 16
  /\ parseFloat_string (js "0x10") = zero
  /\ StringToNumber (js "  ") = zero
  /\ parseFloat_string (js "  ") = NaN
  /\ StringToNumber (js "-0") = S754_zero true
  /\ StringToNumber (js "-Infinity") = S754_infinity true
  /\ StringToNumber (js "1e999") = S754_infinity false
  /\ StringToNumber (js "-1e-999") = S754_zero true
  /\ minus_one = S754_finite true 4503599627370496 (-52).
Proof. repeat split; vm_compute; reflexivity. Qed.

Lemma isNaN_abc : isNaN (VString (js "abc")) = Normal true.
Proof. reflexivity. Qed.

Lemma lt_zero_minus_one :
  isNaN (VNumber minus_one) = Normal false /\ lt_zero (VNumber minus_one) = Normal true.
Proof. split; reflexivity. Qed.

(** ** The create route: validation *)

(** C10: a create request whose price is the number 0 (of either sign) is
    answered 400 with the required-fields message, whatever its name, and
    leaves the collection and the cache as they were: no round trip to
    either backend is made. *)
Theorem price_zero_is_rejected `{JSON} (env : Env) (w : World)
    (nm d : value) (s : bool) :
  let run :=
    post_products env
      {| body_name := nm; body_price := VNumber (S754_zero s); body_description := d |} w in
  result run
    = Normal (json_response 400 (Failure (js "Name and price are required fields")))
  /\ final run = w
  /\ calls run = [].
Proof.
  unfold post_products, try_catch; cbn.
  rewrite orb_true_r. cbn. auto.
Qed.

(** C3: a create request whose price is the number -1 or the string "abc"
    is answered 400, whatever its name and description, and writes nothing:
    the state is the one before the request and no round trip is made. *)
Theorem bad_price_is_rejected `{JSON} (env : Env) (w : World) (nm d p : value) :
  p = VNumber minus_one \/ p = VString (js "abc") ->
  let run :=
    post_products env {| body_name := nm; body_price := p; body_description := d |} w in
  result run
    = Normal (json_response 400
        (Failure (if ToBoolean nm
                  then js "Price must be a valid positive number"
                  else js "Name and price are required fields")))
  /\ final run = w
  /\ products (final run) = products w
  /\ calls run = [].
Proof.
  intros [-> | ->]; unfold post_products, try_catch, bind, lift;
    cbn [body_name body_price body_description];
    destruct (ToBoolean nm); cbn [negb orb];
    try (change (ToBoolean (VNumber minus_one)) with true);
    try (change (ToBoolean (VString (js "abc"))) with true);
    cbn [negb orb];
    try rewrite isNaN_abc;
    try (destruct lt_zero_minus_one as [-> ->]);
    cbn; auto.
Qed.

Lemma bad_price_is_rejected_witness :
  (VString (js "abc") = VNumber minus_one \/ VString (js "abc") = VString (js "abc"))
  /\ forall J : JSON,
       products (final (post_products (quiet 2%N) (create (js "Widget") (VString (js "abc"))) (cached [])))
       = [widget].
Proof.
  split; [now right |].
  intros J.
  exact (proj1 (proj2 (proj2
    (bad_price_is_rejected (quiet 2%N) (cached []) (VString (js "Widget")) VUndefined
       (VString (js "abc")) (or_intror eq_refl))))).
Defined.

(** ** The create route: accepted requests *)

(** The description a create request stores. *)
Lemma stored_description (d : value) :
  ToBoolean d = false \/ (exists s, d = VString s) ->
  exists desc,
    (if ToBoolean d then lift (call_trim "description" d) else ret []) = ret desc.
Proof.
  intros [E | [s ->]].
  - rewrite E. now exists [].
  - destruct s as [| c s]; [now exists [] | now exists (trim (c :: s))].
Qed.

(** A request with a non-empty string for a name, a positive number for a
    price and, for a description, nothing or a string, is answered 201 once
    the insert goes through; the document added carries the trimmed name.
    Whether the cache is then refreshed changes nothing to that. *)
Lemma create_succeeds `{JSON} (env : Env) (w : World) (n : jsstring) (p : number)
    (d : value) :
  n <> [] ->
  number_lt zero p = true ->
  ToBoolean d = false \/ (exists s, d = VString s) ->
  save_error env = None ->
  let run :=
    post_products env
      {| body_name := VString n; body_price := VNumber p; body_description := d |} w in
  exists doc,
    result run
      = Normal (json_response 201
          (Success (Document doc) (js "Product created successfully")))
    /\ _id doc = new_ObjectId env /\ name doc = trim n /\ price doc = p
    /\ products (final run) = products w ++ [doc]
    /\ redisClient (final run) = redisClient w.
Proof.
  intros Hn Hp Hd Hsave.
  destruct (positive_number p Hp) as (Ht & Hnan & Hlt & Hpf & Hnn).
  destruct (stored_description d Hd) as [desc Hdesc].
  assert (Hb : ToBoolean (VString n) = true) by (destruct n; [now elim Hn | reflexivity]).
  unfold post_products, try_catch, bind.
  cbn [body_name body_price body_description].
  rewrite Hb, Ht, Hnan, Hdesc. cbn [negb orb lift ret].
  rewrite Hlt, Hpf. cbn [call_trim lift ret].
  unfold Product_save. rewrite Hnn, Hsave.
  unfold redis_available, redis_ready, Product_find, redisClient_set, result, final.
  exists {| _id := new_ObjectId env; name := trim n; price := p; description := desc |}.
  cbn [redisClient].
  destruct (redisClient w) as [[[|]] |], (find_error env), (set_error env); cbn;
    repeat split; reflexivity.
Qed.

(** C1, amended: for a name that is not empty once trimmed and a price that
    is a positive number, the create request is answered 201, and a listing
    read from the store afterwards (by [Product.find], or by the list route
    when it does not go through the cache) includes a document with the
    trimmed name and that price. *)
Theorem create_then_listAll `{JSON} (env env' : Env) (w : World) (n : jsstring)
    (p : number) (d : value) :
  trim n <> [] ->
  number_lt zero p = true ->
  ToBoolean d = false \/ (exists s, d = VString s) ->
  save_error env = None ->
  find_error env' = None ->
  let run :=
    post_products env
      {| body_name := VString n; body_price := VNumber p; body_description := d |} w in
  exists doc docs,
    result run
      = Normal (json_response 201
          (Success (Document doc) (js "Product created successfully")))
    /\ name doc = trim n /\ price doc = p
    /\ result (Product_find env' (final run)) = Normal docs
    /\ result (get_products env' (step (final run) (ClientBecomes None)))
       = Normal (json_response 200
           (Success (Documents docs) (js "Products retrieved successfully")))
    /\ doc ∈ docs.
Proof.
  intros Hn Hp Hd Hsave Hfind run.
  assert (Hn' : n <> []) by (intros ->; now apply Hn).
  destruct (create_succeeds env w n p d Hn' Hp Hd Hsave)
    as (doc & Hres & _ & Hname & Hprice & Hdocs & _).
  fold run in Hres, Hdocs.
  exists doc, (products w ++ [doc]).
  repeat split; try assumption.
  - unfold Product_find, result. rewrite Hfind. cbn. now rewrite Hdocs.
  - unfold get_products, try_catch, bind, redis_available, Product_find, result.
    cbn. rewrite Hfind. cbn. now rewrite Hdocs.
  - apply elem_of_app. right. apply list_elem_of_singleton. reflexivity.
Qed.

Lemma create_then_listAll_witness :
  (trim (js " Widget ") <> [] /\ number_lt zero one = true)
  /\ forall J : JSON,
       exists doc docs,
         result (Product_find (quiet 3%N)
           (final (post_products (quiet 2%N) (create (js " Widget ") (VNumber one)) bare)))
         = Normal docs
         /\ doc ∈ docs /\ name doc = js "Widget" /\ price doc = one.
Proof.
  assert (Hn : trim (js " Widget ") <> []) by (vm_compute; discriminate).
  split; [split; [exact Hn | reflexivity] |].
  intros J.
  destruct (create_then_listAll (quiet 2%N) (quiet 3%N) bare (js " Widget ") one VUndefined
              Hn eq_refl (or_introl eq_refl) eq_refl eq_refl)
    as (doc & docs & _ & Hname & Hprice & Hfind & _ & Hin).
  exists doc, docs. repeat split; assumption.
Defined.

(** C1 as stated fails: the name [" a"] is not empty and the price 1 is a
    number that is at least 0; the request is answered 201, but the document
    stored is named ["a"], and no document named [" a"] is listed. *)
Lemma create_then_listAll_counterexample :
  (js " a" <> [] /\ number_le zero one = true)
  /\ forall J : JSON,
       result (post_products (quiet 2%N) (create (js " a") (VNumber one)) bare)
       = Normal (json_response 201
           (Success
              (Document {| _id := 2%N; name := js "a"; price := one; description := [] |})
              (js "Product created successfully")))
       /\ result (Product_find (quiet 3%N)
            (final (post_products (quiet 2%N) (create (js " a") (VNumber one)) bare)))
          = Normal [{| _id := 2%N; name := js "a"; price := one; description := [] |}]
       /\ ~ exists doc,
              doc ∈ products
                       (final (post_products (quiet 2%N) (create (js " a") (VNumber one)) bare))
              /\ name doc = js " a" /\ price doc = one.
Proof.
  split; [split; [discriminate | reflexivity] |].
  intros J. split; [reflexivity | split; [reflexivity |]].
  intros (doc & Hin & Hname & _).
  cbn in Hin. apply list_elem_of_singleton in Hin. subst doc.
  discriminate Hname.
Qed.

(** C4, what the code does: a name made of white space only passes the
    required-fields test, which looks at the name before it is trimmed, and
    a document with the empty name is stored. *)
Theorem blank_name_is_persisted `{JSON} (env : Env) (w : World) (n : jsstring)
    (p : number) :
  n <> [] ->
  trim n = [] ->
  number_lt zero p = true ->
  save_error env = None ->
  let run := post_products env (create n (VNumber p)) w in
  exists doc,
    result run
      = Normal (json_response 201
          (Success (Document doc) (js "Product created successfully")))
    /\ name doc = []
    /\ products (final run) = products w ++ [doc].
Proof.
  intros Hn Ht Hp Hsave run.
  destruct (create_succeeds env w n p VUndefined Hn Hp (or_introl eq_refl) Hsave)
    as (doc & Hres & _ & Hname & _ & Hdocs & _).
  exists doc. rewrite Ht in Hname. auto.
Qed.

Lemma blank_name_is_persisted_witness :
  (js "   " <> [] /\ trim (js "   ") = [] /\ number_lt zero one = true)
  /\ forall J : JSON,
       exists doc,
         name doc = []
         /\ products (final (post_products (quiet 2%N) (create (js "   ") (VNumber one)) bare))
            = [doc].
Proof.
  assert (Hn : js "   " <> []) by discriminate.
  split; [split; [exact Hn | split; reflexivity] |].
  intros J.
  destruct (blank_name_is_persisted (quiet 2%N) bare (js "   ") one Hn eq_refl eq_refl eq_refl)
    as (doc & _ & Hname & Hdocs).
  exists doc. split; assumption.
Defined.

(** ** The list route without the cache *)

(** C2: when there is no Redis client, or the client is not ready, and the
    store read succeeds, the list route answers 200 with [success: true]
    and exactly the documents the store returned; Redis is not called. *)
Theorem list_is_fail_open `{JSON} (env : Env) (w : World) :
  redisClient w = None \/ (exists c, redisClient w = Some c /\ isReady c = false) ->
  find_error env = None ->
  let run := get_products env w in
  result run
    = Normal (json_response 200
        (Success (Documents (products w)) (js "Products retrieved successfully")))
  /\ result (Product_find env w) = Normal (products w)
  /\ final run = w
  /\ calls run = [MongoFind].
Proof.
  intros Hc Hfind.
  assert (Hr : redis_ready w = false).
  { unfold redis_ready. destruct Hc as [-> | (c & -> & ->)]; reflexivity. }
  unfold get_products, try_catch, bind, redis_available, Product_find, result, final, calls.
  rewrite Hr, Hfind. cbn. rewrite Hr. cbn. auto.
Qed.

Lemma list_is_fail_open_witness :
  (redisClient offline = None
   \/ (exists c, redisClient offline = Some c /\ isReady c = false))
  /\ forall J : JSON,
       result (get_products (quiet 2%N) offline)
       = Normal (json_response 200
           (Success (Documents [widget]) (js "Products retrieved successfully"))).
Proof.
  assert (Hc : redisClient offline = None
               \/ (exists c, redisClient offline = Some c /\ isReady c = false)).
  { right. exists {| isReady := false |}. split; reflexivity. }
  split; [exact Hc |].
  intros J.
  exact (proj1 (list_is_fail_open (quiet 2%N) offline Hc eq_refl)).
Defined.

(** The same fallback when the client is ready and the cache read itself
    fails: the error is absorbed and the documents come from the store. *)
Lemma cache_read_failure_falls_back `{JSON} (env : Env) (w : World) (e : Error) :
  get_error env = Some e ->
  find_error env = None ->
  result (get_products env w)
  = Normal (json_response 200
      (Success (Documents (products w)) (js "Products retrieved successfully"))).
Proof.
  intros Hget Hfind. run_handler. rewrite Hget, Hfind. all_cases.
Qed.

(** ** What a run can do *)

(** What a request may change: documents are appended, the client is left
    alone, and Redis is either untouched or has the listing key set to the
    serialization of the whole collection. *)
Lemma handle_frame `{JSON} (env : Env) (r : Request) (w : World) :
  let w' := final (handle env r w) in
  products w `prefix_of` products w'
  /\ redisClient w' = redisClient w
  /\ (redis w' = redis w
      \/ redis w'
         = <[cacheKey := {| entry_value := JSON_stringify (products w');
                            entry_EX := Some 3600 |}]> (redis w)).
Proof.
  destruct r as [| req]; run_handler; all_cases;
    (split; [first [reflexivity | by apply prefix_app_r] | split; [reflexivity | auto]]).
Qed.

(** A handler always completes with a response: the outer [catch] leaves
    nothing uncaught. *)
Lemma handle_responds `{JSON} (env : Env) (r : Request) (w : World) :
  exists res, result (handle env r w) = Normal res.
Proof.
  destruct r as [| req]; run_handler; all_cases; eauto.
Qed.

(** ** The list route: cache hit *)

Lemma cache_read (env : Env) (w : World) (payload : jsstring) :
  result (redisClient_get env cacheKey w) = Normal (Some payload) ->
  get_error env = None /\ entry_value <$> (redis w !! cacheKey) = Some payload.
Proof.
  unfold redisClient_get, result. destruct (get_error env); cbn; [discriminate |].
  intros [= E]. auto.
Qed.

(** C5, amended: when the client is ready and the cache read returns a
    string that is not empty, the store is not queried and nothing is
    written; and when that string parses as JSON the response is 200 with
    the parsed payload for data. *)
Theorem cache_hit_bypasses_store `{JSON} (env : Env) (w : World) (c : N) (s : jsstring) :
  redis_ready w = true ->
  result (redisClient_get env cacheKey w) = Normal (Some (c :: s)) ->
  let run := get_products env w in
  calls run = [RedisGet cacheKey]
  /\ (MongoFind ∉ calls run)
  /\ final run = w
  /\ forall v, JSON_parse (c :: s) = Normal v ->
       result run
       = Normal (json_response 200
           (Success (Parsed v) (js "Products retrieved from cache"))).
Proof.
  intros Hr Hget. destruct (cache_read env w (c :: s) Hget) as [Hg Hl].
  run_handler. rewrite Hr, Hg. cbn. rewrite Hl.
  destruct (JSON_parse (c :: s)); cbn; repeat split; try reflexivity;
    try (intros Hin; apply list_elem_of_singleton in Hin; discriminate Hin);
    intros v [= ->]; reflexivity.
Qed.

Lemma cache_hit_bypasses_store_witness :
  (redis_ready (cached (js "[]")) = true
   /\ result (redisClient_get (quiet 2%N) cacheKey (cached (js "[]")))
      = Normal (Some (js "[]")))
  /\ forall J : JSON,
       calls (get_products (quiet 2%N) (cached (js "[]"))) = [RedisGet cacheKey].
Proof.
  split; [split; reflexivity |].
  intros J.
  exact (proj1
    (cache_hit_bypasses_store (quiet 2%N) (cached (js "[]")) 91%N [93%N] eq_refl eq_refl)).
Defined.

(** C5 as stated fails: the cache read returns the empty string, which is
    not null; the route takes it for a miss, queries the store and answers
    with the documents read there. *)
Lemma cache_hit_bypasses_store_counterexample :
  (redis_ready (cached []) = true
   /\ result (redisClient_get (quiet 2%N) cacheKey (cached [])) = Normal (Some []))
  /\ forall J : JSON,
       MongoFind ∈ calls (get_products (quiet 2%N) (cached []))
       /\ result (get_products (quiet 2%N) (cached []))
          = Normal (json_response 200
              (Success (Documents [widget]) (js "Products retrieved successfully"))).
Proof.
  split; [split; reflexivity |].
  intros J. split; [| reflexivity].
  apply list_elem_of_further, list_elem_of_here.
Qed.

(** ** Cache writes *)



(** C8: whether the cache write fails or succeeds, a request is answered
    with the same status and body; the collection ends up the same and the
    same round trips are made. *)
Theorem cache_write_failure_is_swallowed `{JSON} (r : Request) (w : World)
    (id : ObjectId) (fe se ge : option Error) (e : Error) :
  let failing :=
    {| new_ObjectId := id; find_error := fe; save_error := se;
       get_error := ge; set_error := Some e |} in
  let working :=
    {| new_ObjectId := id; find_error := fe; save_error := se;
       get_error := ge; set_error := None |} in
  result (handle failing r w) = result (handle working r w)
  /\ products (final (handle failing r w)) = products (final (handle working r w))
  /\ calls (handle failing r w) = calls (handle working r w).
Proof.
  destruct r as [| req]; run_handler; cbn; all_cases.
Qed.

(** ** Store failures *)

(** C9, amended: when the store read of a listing fails, or the insert of a
    create fails with an error that is neither a validation error nor a
    duplicate-key error, the response is 500 with the error's message. *)
Theorem store_failure_is_surfaced `{JSON} (env : Env) (r : Request) (w : World)
    (e : Error) :
  (exists c, c ∈ calls (handle env r w) /\ is_store_operation r c = true) ->
  store_error env r = Some e ->
  r = GET \/ (err_name e <> js "ValidationError" /\ err_code e <> Some 11000) ->
  result (handle env r w) = Normal (json_response 500 (Failure (err_message e))).
Proof.
  intros (c & Hin & Hop) He Hkind.
  destruct r as [| req]; cbn in He; run_handler.
  - all_cases; set_unfold; naive_solver.
  - destruct Hkind as [| [Hname Hcode]]; [discriminate |].
    all_cases; set_unfold; naive_solver.
Qed.

Lemma store_failure_is_surfaced_witness :
  ((exists c, c ∈ [MongoFind] /\ is_store_operation GET c = true)
   /\ store_error (find_fails 2%N) GET = Some outage)
  /\ forall J : JSON,
       result (get_products (find_fails 2%N) bare)
       = Normal (json_response 500 (Failure (js "connection timed out"))).
Proof.
  assert (Hc : exists c, c ∈ [MongoFind] /\ is_store_operation GET c = true).
  { exists MongoFind. split; [apply list_elem_of_here | reflexivity]. }
  split; [split; [exact Hc | reflexivity] |].
  intros J.
  exact (store_failure_is_surfaced (find_fails 2%N) GET bare outage Hc eq_refl (or_introl eq_refl)).
Defined.

(** C9 as stated fails: a create request whose insert succeeds reads the
    collection again to refresh the cache; that read fails with an error
    that is neither a validation error nor a duplicate-key error, and the
    response is 201 all the same. *)
Lemma store_failure_is_surfaced_counterexample :
  (find_error (find_fails 2%N) = Some outage
   /\ err_name outage <> js "ValidationError"
   /\ err_code outage <> Some 11000)
  /\ forall J : JSON,
       calls (post_products (find_fails 2%N) (create (js "Gadget") (VNumber one))
                (cached (js "[]")))
       = [MongoInsert {| _id := 2%N; name := js "Gadget"; price := one; description := [] |};
          MongoFind]
       /\ result (post_products (find_fails 2%N) (create (js "Gadget") (VNumber one))
                    (cached (js "[]")))
          = Normal (json_response 201
              (Success
                 (Document
                    {| _id := 2%N; name := js "Gadget"; price := one; description := [] |})
                 (js "Product created successfully"))).
Proof.
  split; [split; [reflexivity | split; discriminate] |].
  intros J. split; reflexivity.
Qed.

(** ** Cache entries are whole snapshots *)



(** A cache with nothing under the listing key is in order. *)
Lemma empty_cache_is_snapshot `{JSON} (w : World) :
  redis w !! cacheKey = None -> cache_is_snapshot w.
Proof. intros Hnone e He. rewrite Hnone in He. discriminate He. Qed.



(** ** A run of the service *)

(** Starting with an empty collection, a connected client and an empty
    cache: a create for a widget at 9.99, then a listing.  The create is
    answered 201 and leaves the serialization of the one-document
    collection under the listing key; the listing is then served from the
    cache, without a query to the store. *)
Example widget_scenario {J : JSON} :
  let start :=
    {| products := []; redisClient := Some {| isReady := true |}; redis := ∅ |} in
  let doc :=
    {| _id := 7%N; name := js "Widget";
       price := decimal_to_number false 999 (-2); description := [] |} in
  let created :=
    post_products (quiet 7%N) (create (js "Widget") (VString (js "9.99"))) start in
  result created
    = Normal (json_response 201
        (Success (Document doc) (js "Product created successfully")))
  /\ products (final created) = [doc]
  /\ redis (final created) !! cacheKey
     = Some {| entry_value := JSON_stringify [doc]; entry_EX := Some 3600 |}
  /\ (JSON_stringify [doc] <> [] ->
      calls (get_products (quiet 8%N) (final created)) = [RedisGet cacheKey]).
Proof.
  cbn zeta. repeat split.
  destruct J as [stringify parse]. intros Hne. vm_compute in Hne |- *.
  destruct (stringify _); [now elim Hne |].
  destruct (parse _); reflexivity.
Qed.

(** ** The routes, unfolded *)

Lemma world_eta (w : World) :
  {| products := products w; redisClient := redisClient w; redis := redis w |} = w.
Proof. destruct w; reflexivity. Qed.

Lemma get_products_unfolds `{JSON} (env : Env) (w : World) :
  get_products env w = get_products_tree env w.
Proof.
  unfold get_products_tree, cache_lookup, lookup_calls, listed, cache_listing,
    serve_cached.
  run_handler. all_cases;
    rewrite ?andb_true_r, ?andb_false_r, ?andb_true_l, ?andb_false_l in *;
    try congruence;
    match goal with
    | H1 : redis_ready _ = _, H2 : redis_ready _ && _ = _ |- _ =>
        rewrite H1 in H2; discriminate H2
    end.
Qed.

Lemma try_bind_lift {A B} (c : Completion A) (k : A -> M B) (h : Error -> M B)
    (w : World) :
  try_catch (bind (lift c) k) h w
  = match c with
    | Normal a => try_catch (k a) h w
    | Throw e => h e w
    end.
Proof.
  unfold try_catch, bind, lift. destruct c as [a | e]; cbn.
  - destruct (k a w) as [[[r | e] w'] l]; cbn; [reflexivity |].
    destruct (h e w') as [[r w''] l']; reflexivity.
  - destruct (h e w) as [[r w'] l]; reflexivity.
Qed.

Lemma try_bind_ret {A B} (a : A) (k : A -> M B) (h : Error -> M B) (w : World) :
  try_catch (bind (ret a) k) h w = try_catch (k a) h w.
Proof. exact (try_bind_lift (Normal a) k h w). Qed.

Lemma post_products_unfolds `{JSON} (env : Env) (req : CreateBody) (w : World) :
  post_products env req w = post_products_tree env req w.
Proof.
  unfold post_products_tree, check, post_products.
  cbv zeta.
  destruct (negb (ToBoolean (body_name req)) || negb (ToBoolean (body_price req)));
    [reflexivity |].
  assert (Hcatch : forall e w',
    (if decide (err_name e = js "ValidationError")
     then ret (json_response 400 (Failure (js "Validation error: " ++ err_message e)))
     else if decide (err_code e = Some 11000)
          then ret (json_response 409 (Failure (js "Product with this name already exists")))
          else ret (json_response 500 (Failure (err_message e)))) w'
    = (Normal (catch_create e), w', [])).
  { intros e w'. unfold catch_create, failed.
    destruct (decide _); [reflexivity |]. destruct (decide _); reflexivity. }
  rewrite try_bind_lift.
  destruct (isNaN (body_price req)) as [[|] | e]; [| | apply Hcatch].
  { rewrite try_bind_ret. reflexivity. }
  rewrite try_bind_lift.
  destruct (lt_zero (body_price req)) as [[|] | e]; [reflexivity | | apply Hcatch].
  rewrite try_bind_lift.
  destruct (call_trim "name" (body_name req)) as [nm | e]; [| apply Hcatch].
  rewrite try_bind_lift.
  destruct (parseFloat (body_price req)) as [pr | e]; [| apply Hcatch].
  assert (Htail : forall desc,
    try_catch
      (bind (Product_save env nm pr desc) (fun savedProduct =>
       bind redis_available (fun ready =>
       bind (if ready
             then try_catch
                    (bind (Product_find env) (fun allProducts =>
                     redisClient_set env cacheKey (JSON_stringify allProducts) 3600))
                    (fun _ => ret tt)
             else ret tt) (fun _ =>
       ret (json_response 201
              (Success (Document savedProduct) (js "Product created successfully")))))))
      (fun error =>
         if decide (err_name error = js "ValidationError") then
           ret (json_response 400
                  (Failure (js "Validation error: " ++ err_message error)))
         else if decide (err_code error = Some 11000) then
           ret (json_response 409 (Failure (js "Product with this name already exists")))
         else ret (json_response 500 (Failure (err_message error)))) w
    = persist env nm pr desc w).
  { intros desc. unfold persist, try_catch at 1. unfold bind at 1. unfold Product_save.
    destruct (number_isNaN pr); [rewrite Hcatch; reflexivity |].
    destruct (save_error env) as [e |].
    - rewrite Hcatch. reflexivity.
    - unfold bind, redis_available, try_catch, Product_find, redisClient_set, ret,
        redis_ready, add_document, cache_listing, created. cbn.
      destruct (redisClient w) as [[[|]] |]; cbn; try reflexivity.
      destruct (find_error env); cbn; [reflexivity |].
      destruct (set_error env); reflexivity. }
  destruct (ToBoolean (body_description req)).
  - rewrite try_bind_lift.
    destruct (call_trim "description" (body_description req)) as [desc | e];
      [apply Htail | apply Hcatch].
  - rewrite try_bind_ret. apply Htail.
Qed.

(** ** White space and [trim] *)

Lemma trim_start_head (s : jsstring) (c : N) (t : jsstring) :
  trim_start s = c :: t -> is_white_space c = false.
Proof.
  induction s as [| a s IH]; cbn; [discriminate |].
  destruct (is_white_space a) eqn:Ha; [exact IH |].
  intros [= <- <-]. exact Ha.
Qed.

Lemma trim_start_splits (s : jsstring) :
  exists ws, s = ws ++ trim_start s /\ forallb is_white_space ws = true.
Proof.
  induction s as [| a s (ws & Hs & Hws)]; cbn; [now exists [] |].
  destruct (is_white_space a) eqn:Ha.
  - exists (a :: ws). cbn. rewrite Ha, Hws. split; [now f_equal | reflexivity].
  - now exists [].
Qed.

Lemma trim_end_splits (u : jsstring) :
  exists ws, u = trim_end u ++ ws /\ forallb is_white_space ws = true.
Proof.
  unfold trim_end. destruct (trim_start_splits (rev u)) as (ws & Hu & Hws).
  exists (rev ws). split.
  - rewrite <- rev_app_distr, <- Hu. symmetry. apply rev_involutive.
  - rewrite forallb_forall in *. intros x Hx. apply Hws. now apply in_rev.
Qed.

Lemma trim_end_last (u : jsstring) (c : N) (t : jsstring) :
  trim_end u = c :: t -> is_white_space (List.last (c :: t) c) = false.
Proof.
  unfold trim_end. intros E.
  destruct (trim_start (rev u)) as [| a r] eqn:Er; [discriminate E |].
  rewrite <- E. cbn [rev]. rewrite last_last. exact (trim_start_head _ _ _ Er).
Qed.

(** What is left of [s] after [trimStart] is [s.trim()] and white space. *)
Lemma trim_start_is_trim (s : jsstring) :
  exists ws, trim_start s = trim s ++ ws /\ forallb is_white_space ws = true.
Proof. exact (trim_end_splits (trim_start s)). Qed.

Lemma tidy_trim (s : jsstring) : tidy (trim s) = true.
Proof.
  destruct (trim s) as [| c t] eqn:E; [reflexivity |].
  unfold tidy. apply andb_true_intro. split; apply negb_true_iff.
  - destruct (trim_start_is_trim s) as (ws & Hs & _). rewrite E in Hs.
    exact (trim_start_head s c (t ++ ws) Hs).
  - exact (trim_end_last _ _ _ E).
Qed.

Lemma trim_nil_start (s : jsstring) : trim s = [] -> trim_start s = [].
Proof.
  intros E. destruct (trim_start_is_trim s) as (ws & Hs & Hws). rewrite E in Hs.
  cbn in Hs. destruct (trim_start s) as [| c t] eqn:Et; [reflexivity |].
  pose proof (trim_start_head s c t Et) as Hc. subst ws. cbn in Hws.
  rewrite Hc in Hws. discriminate Hws.
Qed.

(** ** Numeric literals followed by white space *)

Lemma white_space_ends_literal (c : N) :
  is_white_space c = true -> ends_literal c = true.
Proof.
  unfold is_white_space. rewrite !orb_true_iff, andb_true_iff, !N.eqb_eq, !N.leb_le.
  intros H.
  assert (Hc : In c [0x9; 0xA; 0xB; 0xC; 0xD; 0x20; 0xA0; 0x1680; 0x2000; 0x2001;
                      0x2002; 0x2003; 0x2004; 0x2005; 0x2006; 0x2007; 0x2008;
                      0x2009; 0x200A; 0x2028; 0x2029; 0x202F; 0x205F; 0x3000;
                      0xFEFF]%N).
  { cbn. lia. }
  cbn in Hc. repeat (destruct Hc as [<- | Hc]; [reflexivity |]). contradiction.
Qed.

Lemma ends_literal_spec (c : N) :
  ends_literal c = true ->
  decimal_digit c = None
  /\ (c =? 46)%N = false /\ (c =? 101)%N = false /\ (c =? 69)%N = false
  /\ (c =? 43)%N = false /\ (c =? 45)%N = false
  /\ existsb (N.eqb c) (js "Infinity") = false.
Proof.
  unfold ends_literal. destruct (decimal_digit c); [discriminate |].
  rewrite negb_true_iff, !orb_false_iff. tauto.
Qed.

Section Followed.
Variables (c : N) (ws : jsstring).
Hypothesis Hc : ends_literal c = true.

Lemma scan_digits_followed (t : jsstring) (acc n : Z) :
  scan_digits 10 decimal_digit acc n (t ++ c :: ws)
  = let '(v, k, rest) := scan_digits 10 decimal_digit acc n t in (v, k, rest ++ c :: ws).
Proof.
  destruct (ends_literal_spec c Hc) as (Hd & _).
  revert acc n. induction t as [| a t IH]; intros acc n; cbn.
  - now rewrite Hd.
  - destruct (decimal_digit a); [apply IH | reflexivity].
Qed.

Lemma scan_exponent_followed (t : jsstring) :
  scan_exponent (t ++ c :: ws)
  = let '(e, rest) := scan_exponent t in (e, rest ++ c :: ws).
Proof.
  destruct (ends_literal_spec c Hc) as (Hd & _ & He & HE & Hplus & Hminus & _).
  destruct t as [| a s1]; unfold scan_exponent.
  - rewrite app_nil_l. cbv beta iota. now rewrite He, HE.
  - rewrite <- app_comm_cons. cbv beta iota.
    destruct ((a =? 101)%N || (a =? 69)%N); [| reflexivity].
    destruct s1 as [| d t].
    + rewrite app_nil_l. cbv beta iota. rewrite Hplus, Hminus.
      cbn [scan_digits]. rewrite Hd. reflexivity.
    + rewrite <- app_comm_cons. cbv beta iota.
      destruct (d =? 43)%N; [| destruct (d =? 45)%N].
      * rewrite scan_digits_followed.
        destruct (scan_digits 10 decimal_digit 0 0 t) as [[v k] rest].
        now destruct (k =? 0).
      * rewrite scan_digits_followed.
        destruct (scan_digits 10 decimal_digit 0 0 t) as [[v k] rest].
        now destruct (k =? 0).
      * rewrite (app_comm_cons t (c :: ws) d), scan_digits_followed.
        destruct (scan_digits 10 decimal_digit 0 0 (d :: t)) as [[v k] rest].
        now destruct (k =? 0).
Qed.

Lemma scan_unsigned_decimal_followed (t : jsstring) :
  scan_unsigned_decimal (t ++ c :: ws)
  = (fun '(m, e, rest) => (m, e, rest ++ c :: ws)) <$> scan_unsigned_decimal t.
Proof.
  destruct (ends_literal_spec c Hc) as (Hd & Hpoint & _).
  unfold scan_unsigned_decimal. rewrite scan_digits_followed.
  destruct (scan_digits 10 decimal_digit 0 0 t) as [[i ni] s1].
  destruct s1 as [| a s1].
  - rewrite app_nil_l. cbv beta iota. rewrite Hpoint.
    destruct ((ni =? 0) && (0 =? 0)); [reflexivity |].
    pose proof (scan_exponent_followed []) as E. rewrite app_nil_l in E. rewrite E.
    reflexivity.
  - rewrite <- app_comm_cons. cbv beta iota. destruct (a =? 46)%N.
    + rewrite scan_digits_followed.
      destruct (scan_digits 10 decimal_digit i 0 s1) as [[m nf] s2].
      destruct ((ni =? 0) && (nf =? 0)); [reflexivity |].
      rewrite scan_exponent_followed.
      destruct (scan_exponent s2) as [e rest]. reflexivity.
    + destruct ((ni =? 0) && (0 =? 0)); [reflexivity |].
      rewrite (app_comm_cons s1 (c :: ws) a), scan_exponent_followed.
      destruct (scan_exponent (a :: s1)) as [e rest]. reflexivity.
Qed.

Lemma strip_prefix_followed (p t : jsstring) :
  existsb (N.eqb c) p = false ->
  strip_prefix p (t ++ c :: ws) = (fun rest => rest ++ c :: ws) <$> strip_prefix p t.
Proof.
  revert t. induction p as [| a p IH]; intros t Hp; [reflexivity |].
  cbn in Hp. apply orb_false_iff in Hp as [Ha Hp].
  destruct t as [| b t]; cbn.
  - rewrite N.eqb_sym, Ha. reflexivity.
  - destruct (a =? b)%N; [now apply IH | reflexivity].
Qed.

Lemma scan_decimal_literal_followed (t : jsstring) :
  scan_decimal_literal (t ++ c :: ws)
  = (fun '(n, rest) => (n, rest ++ c :: ws)) <$> scan_decimal_literal t.
Proof.
  destruct (ends_literal_spec c Hc) as (_ & _ & _ & _ & Hplus & Hminus & Hinf).
  assert (Hbody : forall neg s1,
    match strip_prefix (js "Infinity") (s1 ++ c :: ws) with
    | Some rest => Some (S754_infinity neg, rest)
    | None =>
        match scan_unsigned_decimal (s1 ++ c :: ws) with
        | Some (m, e, rest) => Some (decimal_to_number neg m e, rest)
        | None => None
        end
    end
    = (fun '(n, rest) => (n, rest ++ c :: ws)) <$>
      match strip_prefix (js "Infinity") s1 with
      | Some rest => Some (S754_infinity neg, rest)
      | None =>
          match scan_unsigned_decimal s1 with
          | Some (m, e, rest) => Some (decimal_to_number neg m e, rest)
          | None => None
          end
      end).
  { intros neg s1. rewrite (strip_prefix_followed _ _ Hinf), scan_unsigned_decimal_followed.
    destruct (strip_prefix (js "Infinity") s1); [reflexivity |].
    destruct (scan_unsigned_decimal s1) as [[[m e] rest] |]; reflexivity. }
  unfold scan_decimal_literal. destruct t as [| a t].
  - rewrite app_nil_l. cbv beta iota. rewrite Hplus, Hminus. exact (Hbody false []).
  - rewrite <- app_comm_cons. cbv beta iota.
    destruct (a =? 43)%N; [apply Hbody |].
    destruct (a =? 45)%N; [apply Hbody |]. exact (Hbody false (a :: t)).
Qed.

End Followed.

(** [parseFloat] reads off a string the number [Number] makes of it, as soon
    as that is a decimal literal between white space. *)
Lemma parseFloat_of_literal (s : jsstring) (n : number) :
  scan_decimal_literal (trim s) = Some (n, []) -> parseFloat_string s = n.
Proof.
  intros Hn. unfold parseFloat_string.
  destruct (trim_start_is_trim s) as (ws & -> & Hws).
  destruct ws as [| c ws].
  - rewrite app_nil_r, Hn. reflexivity.
  - cbn in Hws. apply andb_true_iff in Hws as [Hc _].
    rewrite (scan_decimal_literal_followed c ws (white_space_ends_literal c Hc)), Hn.
    reflexivity.
Qed.

(** ** Signs of rounded numbers *)


Lemma shr_1_nonneg (mrs : shr_record) : 0 <= shr_m mrs -> 0 <= shr_m (shr_1 mrs).
Proof.
  destruct mrs as [m r s]. cbn. intros Hm.
  destruct m as [| p | p]; cbn; [lia | destruct p; cbn; lia | lia].
Qed.

Lemma iter_shr_1_nonneg (p : positive) (mrs : shr_record) :
  0 <= shr_m mrs -> 0 <= shr_m (SpecFloat.iter_pos shr_1 p mrs).
Proof.
  revert mrs. induction p as [p IH | p IH |]; intros mrs Hm; cbn.
  - apply IH, IH, shr_1_nonneg, Hm.
  - apply IH, IH, Hm.
  - apply shr_1_nonneg, Hm.
Qed.

Lemma shr_fexp_nonneg (m e : Z) (l : location) :
  0 <= m -> 0 <= shr_m (fst (shr_fexp prec emax m e l)).
Proof.
  intros Hm. unfold shr_fexp, shr.
  assert (H0 : 0 <= shr_m (shr_record_of_loc m l)).
  { destruct l as [| []]; exact Hm. }
  destruct (fexp prec emax (Zdigits2 m + e) - e); cbn; auto using iter_shr_1_nonneg.
Qed.

Lemma binary_round_aux_signed (sx : bool) (mx ex : Z) (lx : location) :
  0 <= mx -> signed sx (binary_round_aux prec emax sx mx ex lx).
Proof.
  intros Hm. unfold binary_round_aux.
  pose proof (shr_fexp_nonneg mx ex lx Hm) as H1.
  destruct (shr_fexp prec emax mx ex lx) as [mrs' e']. cbn in H1.
  assert (H2 : 0 <= round_nearest_even (shr_m mrs') (loc_of_shr_record mrs')).
  { unfold round_nearest_even.
    destruct (loc_of_shr_record mrs') as [| []]; try lia.
    destruct (Z.even (shr_m mrs')); lia. }
  pose proof (shr_fexp_nonneg _ e' loc_Exact H2) as H3.
  destruct (shr_fexp prec emax _ e' loc_Exact) as [mrs'' e'']. cbn in H3.
  destruct (shr_m mrs'') as [| p | p]; cbn; [reflexivity | | lia].
  destruct (e'' <=? emax - prec); reflexivity.
Qed.

Lemma binary_round_signed (sx : bool) (mx : positive) (ex : Z) :
  signed sx (binary_round prec emax sx mx ex).
Proof.
  unfold binary_round. destruct (shl_align mx ex _) as [mz ez].
  apply binary_round_aux_signed. lia.
Qed.

Lemma number_of_Z_signed (v : Z) : 0 <= v -> signed false (number_of_Z v).
Proof.
  intros Hv. unfold number_of_Z, binary_normalize.
  destruct v as [| p | p]; [reflexivity | apply binary_round_signed | lia].
Qed.

Lemma decimal_to_number_signed (neg : bool) (m e10 : Z) :
  0 <= m -> signed neg (decimal_to_number neg m e10).
Proof.
  intros Hm. unfold decimal_to_number.
  destruct m as [| p | p]; [reflexivity | | lia].
  destruct (0 <=? e10); [apply binary_round_signed |].
  unfold SFdiv.
  destruct (SFdiv_core_binary prec emax (Z.pos p) 0 (Z.pos (Z.to_pos (10 ^ (- e10)))) 0)
    as [[mz ez] lz] eqn:E.
  replace (xorb neg false) with neg by (now destruct neg).
  apply binary_round_aux_signed.
  unfold SFdiv_core_binary in E.
  set (m' := match _ - _ - _ with Z.pos _ => _ | 0 => _ | Z.neg _ => _ end) in E.
  assert (Hm' : 0 <= m').
  { subst m'. destruct (_ - _ - _); [lia | apply Z.shiftl_nonneg; lia | lia]. }
  pose proof (Z.div_pos m' (Z.pos (Z.to_pos (10 ^ (- e10)))) Hm' ltac:(lia)) as Hq.
  unfold Z.div in Hq. destruct (Z.div_eucl m' _) as [q r]. injection E as <- _ _.
  exact Hq.
Qed.

(** A number that is neither [NaN] nor below zero is at least zero. *)
Lemma not_below_zero (x : number) :
  number_isNaN x = false -> number_lt x zero = false -> number_le zero x = true.
Proof. destruct x as [s | [|] | | [|] m e]; cbn; congruence. Qed.

Lemma unsigned_not_below_zero (x : number) :
  signed false x -> number_isNaN x = false /\ number_lt x zero = false.
Proof. destruct x as [s | s | | s m e]; cbn; intros H; subst; auto; contradiction. Qed.

Lemma scan_digits_nonneg (radix : Z) (digit : N -> option Z) (s : jsstring) (acc n : Z) :
  0 <= radix -> (forall c d, digit c = Some d -> 0 <= d) -> 0 <= acc ->
  0 <= (scan_digits radix digit acc n s).1.1.
Proof.
  intros Hr Hd. revert acc n. induction s as [| c s IH]; intros acc n Ha; cbn; [exact Ha |].
  destruct (digit c) as [d |] eqn:E; [| exact Ha].
  apply IH. specialize (Hd c d E). nia.
Qed.

(** ** Number against [parseFloat] on the same string *)

(** A binary, octal or hexadecimal literal is a Number to [Number] and a
    zero followed by a letter to [parseFloat]. *)
Lemma parseFloat_of_non_decimal (s : jsstring) (q : number) :
  scan_non_decimal (trim s) = Some q ->
  parseFloat_string s = zero /\ signed false q.
Proof.
  intros Hq. unfold parseFloat_string.
  destruct (trim_start_is_trim s) as (ws & -> & _).
  destruct (trim s) as [| z [| c t]]; try discriminate Hq.
  unfold scan_non_decimal in Hq.
  destruct (z =? 48)%N eqn:Hz.
  2:{ destruct ((c =? 120) || (c =? 88))%N; [discriminate |].
      destruct ((c =? 111) || (c =? 79))%N; [discriminate |].
      destruct ((c =? 98) || (c =? 66))%N; discriminate. }
  apply N.eqb_eq in Hz. subst z.
  assert (Hsigned : signed false q).
  { assert (Hscan : forall radix digit, 0 <= radix ->
      (forall c d, digit c = Some d -> 0 <= d) ->
      match scan_digits radix digit 0 0 t with
      | (v, n, []) => if 0 <? n then Some (number_of_Z v) else None
      | _ => None
      end = Some q -> signed false q).
    { intros radix digit Hr Hd.
      pose proof (scan_digits_nonneg radix digit t 0 0 Hr Hd ltac:(lia)) as Hv.
      destruct (scan_digits radix digit 0 0 t) as [[v n] [| ? ?]]; [| discriminate].
      destruct (0 <? n); [| discriminate]. intros [= <-].
      apply number_of_Z_signed. exact Hv. }
    assert (Hdigit : forall digit lo hi off,
      (forall c, digit c = if ((lo <=? c) && (c <=? hi))%N then Some (Z.of_N (c - off)) else None) ->
      forall c d, digit c = Some d -> 0 <= d).
    { intros digit lo hi off Hdef c0 d. rewrite Hdef.
      destruct ((lo <=? c0) && (c0 <=? hi))%N; [| discriminate]. intros [= <-]. lia. }
    destruct ((c =? 120) || (c =? 88))%N.
    - apply (Hscan 16 hex_digit); [lia | | exact Hq].
      intros c0 d. unfold hex_digit.
      repeat (destruct (_ && _)%N; [intros [= <-]; lia |]). discriminate.
    - destruct ((c =? 111) || (c =? 79))%N.
      + apply (Hscan 8 octal_digit); [lia | | exact Hq].
        now apply (Hdigit _ 48 55 48)%N.
      + destruct ((c =? 98) || (c =? 66))%N; [| discriminate].
        apply (Hscan 2 binary_digit); [lia | | exact Hq].
        now apply (Hdigit _ 48 49 48)%N. }
  split; [| exact Hsigned].
  assert (Hc : decimal_digit c = None /\ (c =? 46)%N = false
               /\ ((c =? 101) || (c =? 69))%N = false).
  { destruct ((c =? 120) || (c =? 88))%N eqn:Hx.
    - apply orb_true_iff in Hx as [Hx | Hx]; apply N.eqb_eq in Hx; subst c; now vm_compute.
    - destruct ((c =? 111) || (c =? 79))%N eqn:Ho.
      + apply orb_true_iff in Ho as [Ho | Ho]; apply N.eqb_eq in Ho; subst c; now vm_compute.
      + destruct ((c =? 98) || (c =? 66))%N eqn:Hb; [| discriminate].
        apply orb_true_iff in Hb as [Hb | Hb]; apply N.eqb_eq in Hb; subst c; now vm_compute. }
  destruct Hc as (Hd & Hpoint & Hexp).
  rewrite <- !app_comm_cons.
  unfold scan_decimal_literal. cbv beta iota.
  change (48 =? 43)%N with false. change (48 =? 45)%N with false. cbv beta iota.
  change (strip_prefix (js "Infinity") (48%N :: c :: t ++ ws)) with (@None jsstring).
  unfold scan_unsigned_decimal. cbn [scan_digits].
  change (decimal_digit 48) with (Some 0). cbv beta iota. rewrite Hd.
  cbv beta iota. rewrite Hpoint.
  change ((0 + 1 =? 0) && (0 =? 0)) with false. cbv beta iota.
  unfold scan_exponent. rewrite Hexp. reflexivity.
Qed.

(** What the two conversions make of one string, in every case where
    [Number] gives a number. *)
Lemma number_against_parseFloat (s : jsstring) :
  number_isNaN (StringToNumber s) = false ->
  (trim s = [] /\ parseFloat_string s = NaN)
  \/ ((exists q, scan_non_decimal (trim s) = Some q) /\ parseFloat_string s = zero)
  \/ (trim s <> [] /\ scan_non_decimal (trim s) = None
      /\ parseFloat_string s = StringToNumber s).
Proof.
  intros Hn. unfold StringToNumber in *.
  destruct (trim s) as [| a t] eqn:Et.
  - left. split; [reflexivity |]. unfold parseFloat_string.
    rewrite (trim_nil_start s Et). reflexivity.
  - right. destruct (scan_non_decimal (a :: t)) as [q |] eqn:Eq.
    + left. split; [now exists q |]. rewrite <- Et in Eq.
      exact (proj1 (parseFloat_of_non_decimal s q Eq)).
    + right. split; [discriminate | split; [reflexivity |]].
      destruct (scan_decimal_literal (a :: t)) as [[n [| ? ?]] |] eqn:El;
        try discriminate Hn.
      apply parseFloat_of_literal. rewrite Et. exact El.
Qed.

(** ** The create route, case by case *)

Lemma catch_create_fails (e : Error) :
  exists code msg,
    catch_create e = json_response code (Failure msg)
    /\ (code = 400 \/ code = 409 \/ code = 500).
Proof.
  unfold catch_create, failed. destruct (decide _); [eauto 6 |].
  destruct (decide _); eauto 6.
Qed.

Lemma catch_TypeError (message : jsstring) :
  catch_create (TypeError message) = json_response 500 (Failure message).
Proof. reflexivity. Qed.

Lemma check_refused (req : CreateBody) (r : Response) :
  check req = Normal (Refused r) -> exists msg, r = json_response 400 (Failure msg).
Proof.
  unfold check, failed.
  destruct (_ || _); [intros [= <-]; eauto |].
  destruct (isNaN _) as [[|] | ?]; [intros [= <-]; eauto | | discriminate].
  destruct (lt_zero _) as [[|] | ?]; [intros [= <-]; eauto | | discriminate].
  destruct (call_trim "name" _); [| discriminate].
  destruct (parseFloat _); [| discriminate].
  destruct (ToBoolean _); [destruct (call_trim _ _) |]; discriminate.
Qed.

(** What it takes for a body to be accepted, and what is then kept. *)
Lemma check_accepted (req : CreateBody) (nm : jsstring) (pr : number) (desc : jsstring) :
  check req = Normal (Accepted nm pr desc) ->
  ToBoolean (body_price req) = true
  /\ isNaN (body_price req) = Normal false
  /\ lt_zero (body_price req) = Normal false
  /\ parseFloat (body_price req) = Normal pr
  /\ (exists n, body_name req = VString n /\ n <> [] /\ nm = trim n)
  /\ ((ToBoolean (body_description req) = false /\ desc = [])
      \/ (exists d, body_description req = VString d /\ desc = trim d)).
Proof.
  unfold check.
  destruct (ToBoolean (body_name req)) eqn:Hn; [| discriminate].
  destruct (ToBoolean (body_price req)) eqn:Hp; [| discriminate]. cbn [negb orb].
  destruct (isNaN _) as [[|] | ?]; [discriminate | | discriminate].
  destruct (lt_zero _) as [[|] | ?]; [discriminate | | discriminate].
  destruct (body_name req) as [| | | | n |] eqn:En; try discriminate. cbn [call_trim].
  destruct (parseFloat _) as [q |]; [| discriminate].
  destruct (ToBoolean (body_description req)) eqn:Hd.
  - destruct (body_description req) as [| | | | d |]; try discriminate. cbn [call_trim].
    intros [= <- <- <-]. repeat split; try reflexivity; [| eauto].
    exists n. destruct n; [discriminate Hn |]. repeat split. discriminate.
  - intros [= <- <- <-]. repeat split; try reflexivity; [| auto].
    exists n. destruct n; [discriminate Hn |]. repeat split. discriminate.
Qed.

(** An accepted price is read by [parseFloat] as a number that is not
    below zero. *)
Lemma accepted_price (p : value) (pr : number) :
  isNaN p = Normal false -> lt_zero p = Normal false -> parseFloat p = Normal pr ->
  number_lt pr zero = false.
Proof.
  assert (Hs : forall s, number_isNaN (StringToNumber s) = false ->
                         number_lt (StringToNumber s) zero = false ->
                         number_lt (parseFloat_string s) zero = false).
  { intros s Hn Hl.
    destruct (number_against_parseFloat s Hn) as [[_ ->] | [[_ ->] | (_ & _ & ->)]];
      [reflexivity | reflexivity | exact Hl]. }
  destruct p as [| | b | n | s | o]; cbn; try discriminate.
  - intros _ _ [= <-]. reflexivity.
  - destruct b; intros _ _ [= <-]; reflexivity.
  - intros [= Hn] [= Hl]. destruct n; intros [= <-]; auto.
  - intros [= Hn] [= Hl] [= <-]. auto.
  - destruct o as [s |]; cbn; [| discriminate].
    intros [= Hn] [= Hl] [= <-]. auto.
Qed.

(** The run from [save] on, when the document goes in. *)
Lemma persist_created `{JSON} (env : Env) (nm : jsstring) (pr : number) (desc : jsstring)
    (w : World) :
  number_isNaN pr = false -> save_error env = None ->
  let doc := {| _id := new_ObjectId env; name := nm; price := pr; description := desc |} in
  let run := persist env nm pr desc w in
  result run = Normal (created doc)
  /\ products (final run) = products w ++ [doc]
  /\ redisClient (final run) = redisClient w
  /\ exists l, calls run = MongoInsert doc :: l
               /\ Forall (fun c => is_MongoInsert c = false) l.
Proof.
  intros Hn Hs. unfold persist. rewrite Hn, Hs. cbv zeta.
  destruct (redis_ready w); [destruct (find_error env); [| destruct (set_error env)] |];
    cbn; repeat split; eexists; split; try reflexivity; repeat constructor.
Qed.

(** The run from [save] on, when it does not. *)
Lemma persist_refused `{JSON} (env : Env) (nm : jsstring) (pr : number) (desc : jsstring)
    (w : World) :
  number_isNaN pr = true \/ (exists e, save_error env = Some e) ->
  let run := persist env nm pr desc w in
  exists e, result run = Normal (catch_create e)
            /\ final run = w
            /\ Forall (fun c => is_MongoInsert c = true) (calls run)
            /\ (length (calls run) <= 1)%nat.
Proof.
  unfold persist. intros [Hn | [e He]].
  - rewrite Hn. exists price_cast_error. cbn. repeat split; auto.
  - destruct (number_isNaN pr).
    + exists price_cast_error. cbn. repeat split; auto.
    + rewrite He. exists e. cbn. repeat split; auto.
Qed.

(** X1: a create request either is answered 201, and then exactly one
    document, with the generated identifier, has been appended to the
    collection by the one insert of the run; or it is answered 400, 409 or
    500 with a failure body, and then the collection, the client and Redis
    are as they were, and nothing but the insert at most was attempted. *)
Theorem create_is_all_or_nothing `{JSON} (env : Env) (req : CreateBody) (w : World) :
  let run := post_products env req w in
  (exists doc,
      result run = Normal (created doc)
      /\ _id doc = new_ObjectId env
      /\ products (final run) = products w ++ [doc]
      /\ exists l, calls run = MongoInsert doc :: l
                   /\ Forall (fun c => is_MongoInsert c = false) l)
  \/ (exists code msg,
        result run = Normal (json_response code (Failure msg))
        /\ (code = 400 \/ code = 409 \/ code = 500)
        /\ final run = w
        /\ Forall (fun c => is_MongoInsert c = true) (calls run)
        /\ (length (calls run) <= 1)%nat).
Proof.
  cbv zeta. rewrite post_products_unfolds. unfold post_products_tree.
  destruct (check req) as [[r | nm pr desc] | e] eqn:Hc.
  - right. destruct (check_refused req r Hc) as [msg ->].
    exists 400, msg. cbn. repeat split; auto.
  - destruct (number_isNaN pr) eqn:Hn; [| destruct (save_error env) as [e |] eqn:Hs].
    + right. destruct (persist_refused env nm pr desc w (or_introl Hn))
        as (e & Hr & Hf & Hl & Hlen).
      destruct (catch_create_fails e) as (code & msg & He & Hcode).
      exists code, msg. rewrite Hr, He. auto.
    + right. destruct (persist_refused env nm pr desc w (or_intror (ex_intro _ e Hs)))
        as (e' & Hr & Hf & Hl & Hlen).
      destruct (catch_create_fails e') as (code & msg & He & Hcode).
      exists code, msg. rewrite Hr, He. auto.
    + left. destruct (persist_created env nm pr desc w Hn Hs) as (Hr & Hp & _ & Hl).
      eexists. repeat split; [exact Hr | reflexivity | exact Hp | exact Hl].
  - right. destruct (catch_create_fails e) as (code & msg & He & Hcode).
    exists code, msg. cbn. rewrite He. repeat split; auto.
Qed.

(** X2: a listing never writes to the store and never touches the client:
    the collection is the same afterwards, no insert is made, the
    collection is queried at most once, and the answer is 200 with a
    success body or 500 with a failure body, the latter leaving Redis as it
    was too. *)
Theorem list_only_reads `{JSON} (env : Env) (w : World) :
  let run := get_products env w in
  products (final run) = products w
  /\ redisClient (final run) = redisClient w
  /\ Forall (fun c => is_MongoInsert c = false) (calls run)
  /\ (finds (calls run) <= 1)%nat
  /\ ((exists data msg, result run = Normal (json_response 200 (Success data msg)))
      \/ (exists msg, result run = Normal (json_response 500 (Failure msg))
                      /\ final run = w)).
Proof.
  cbv zeta. rewrite get_products_unfolds.
  unfold get_products_tree, lookup_calls, serve_cached, listed, cache_listing.
  destruct (cache_lookup env w) as [[| c s] |];
    try destruct (JSON_parse (c :: s));
    destruct (redis_ready w), (find_error env), (set_error env);
    try destruct (0 <? Z.of_nat (length (products w)));
    cbn; repeat split; try (repeat constructor; fail);
    try (unfold finds; cbn; lia); eauto 8.
Qed.

Lemma isNaN_parseFloat (p : value) (b : bool) :
  isNaN p = Normal b -> exists q, parseFloat p = Normal q.
Proof.
  destruct p as [| | [|] | n | s | [s |]]; cbn; try discriminate; eauto.
  destruct n; eauto.
Qed.

(** X3: with a price that passes the two checks, a name that is truthy but
    not a string (a number, [true], an array, an object) is answered 500
    with the message of the [TypeError] that [name.trim()] raises, and so is
    a description of that kind after a proper name; nothing is written and
    no round trip is made. *)
Theorem trim_of_a_non_string_is_a_500 `{JSON} (env : Env) (w : World) (nm p d : value) :
  ToBoolean p = true -> isNaN p = Normal false -> lt_zero p = Normal false ->
  let run :=
    post_products env {| body_name := nm; body_price := p; body_description := d |} w in
  (ToBoolean nm = true -> (forall s, nm <> VString s) ->
   result run = Normal (failed 500 "name.trim is not a function")
   /\ final run = w /\ calls run = [])
  /\ (forall n, nm = VString n -> n <> [] ->
      ToBoolean d = true -> (forall s, d <> VString s) ->
      result run = Normal (failed 500 "description.trim is not a function")
      /\ final run = w /\ calls run = []).
Proof.
  intros Hp Hnan Hlt. cbv zeta. rewrite post_products_unfolds.
  unfold post_products_tree, check. cbn [body_name body_price body_description].
  rewrite Hp, Hnan, Hlt. split.
  - intros Hn Hs. rewrite Hn. cbn [negb orb].
    destruct nm as [| | b | n | s | o]; try (now elim (Hs s));
      cbn [call_trim]; rewrite catch_TypeError; repeat split.
  - intros n -> Hn Hd Hs.
    destruct n as [| c n]; [now elim Hn |]. cbn [ToBoolean negb orb call_trim].
    destruct (isNaN_parseFloat p false Hnan) as [q ->]. rewrite Hd.
    destruct d as [| | b | m | s | o]; try (now elim (Hs s));
      cbn [call_trim]; rewrite catch_TypeError; repeat split.
Qed.

Lemma trim_of_a_non_string_is_a_500_witness :
  (ToBoolean (VNumber one) = true /\ isNaN (VNumber one) = Normal false
   /\ lt_zero (VNumber one) = Normal false)
  /\ forall J : JSON,
       result (post_products (quiet 2%N)
                 {| body_name := VNumber one; body_price := VNumber one;
                    body_description := VUndefined |} bare)
       = Normal (failed 500 "name.trim is not a function").
Proof.
  split; [repeat split |]. intros J.
  refine (proj1 (proj1 (trim_of_a_non_string_is_a_500 (quiet 2%N) bare (VNumber one)
            (VNumber one) VUndefined eq_refl eq_refl eq_refl) eq_refl _)).
  discriminate.
Defined.

(** X4: when the insert is attempted and fails, the response is the one the
    [catch] block maps the error to, by name first and by code second: 400
    for a [ValidationError], 409 for code 11000, 500 with the message
    otherwise.  The collection and Redis are as before and the insert is the
    only round trip: the cache is not refreshed. *)
Theorem failed_insert_is_mapped `{JSON} (env : Env) (req : CreateBody) (w : World)
    (doc : Product) (e : Error) :
  MongoInsert doc ∈ calls (post_products env req w) ->
  save_error env = Some e ->
  let run := post_products env req w in
  result run
    = Normal
        (if decide (err_name e = js "ValidationError") then
           json_response 400 (Failure (js "Validation error: " ++ err_message e))
         else if decide (err_code e = Some 11000) then
           json_response 409 (Failure (js "Product with this name already exists"))
         else json_response 500 (Failure (err_message e)))
  /\ final run = w
  /\ calls run = [MongoInsert doc].
Proof.
  cbv zeta. rewrite post_products_unfolds. unfold post_products_tree.
  destruct (check req) as [[r | nm pr desc] | e']; cbn [calls snd];
    try (intros Hin; apply elem_of_nil in Hin; contradiction).
  unfold persist. destruct (number_isNaN pr);
    [intros Hin; apply elem_of_nil in Hin; contradiction |].
  intros Hin Hs. rewrite Hs in *. cbn in Hin.
  apply list_elem_of_singleton in Hin. injection Hin as <-.
  repeat split.
Qed.

Lemma failed_insert_is_mapped_witness :
  save_error (insert_fails 2%N duplicate_key) = Some duplicate_key
  /\ forall J : JSON,
       MongoInsert {| _id := 2%N; name := js "Widget"; price := one; description := [] |}
         ∈ calls (post_products (insert_fails 2%N duplicate_key)
                    (create (js "Widget") (VNumber one)) (cached (js "[]")))
       /\ result (post_products (insert_fails 2%N duplicate_key)
                    (create (js "Widget") (VNumber one)) (cached (js "[]")))
          = Normal (failed 409 "Product with this name already exists").
Proof.
  split; [reflexivity |]. intros J.
  assert (Hin :
    MongoInsert {| _id := 2%N; name := js "Widget"; price := one; description := [] |}
      ∈ calls (post_products (insert_fails 2%N duplicate_key)
                 (create (js "Widget") (VNumber one)) (cached (js "[]"))))
    by apply list_elem_of_here.
  split; [exact Hin |].
  exact (proj1 (failed_insert_is_mapped (insert_fails 2%N duplicate_key)
                  (create (js "Widget") (VNumber one)) (cached (js "[]")) _
                  duplicate_key Hin eq_refl)).
Defined.

(** The checks on a price given as a string. *)
Lemma check_string_price (n s : jsstring) (d : value) (q : number) :
  n <> [] -> s <> [] ->
  number_isNaN (StringToNumber s) = false ->
  number_lt (StringToNumber s) zero = false ->
  parseFloat_string s = q ->
  ToBoolean d = false \/ (exists t, d = VString t) ->
  exists desc,
    check {| body_name := VString n; body_price := VString s; body_description := d |}
    = Normal (Accepted (trim n) q desc).
Proof.
  intros Hn Hs Hnan Hlt Hq Hd. unfold check.
  cbn [body_name body_price body_description].
  destruct n as [| a n]; [now elim Hn |]. destruct s as [| b s]; [now elim Hs |].
  cbn [ToBoolean negb orb isNaN ToNumber lt_zero call_trim parseFloat].
  rewrite Hnan. unfold number_lt in Hlt |- *. rewrite Hlt, Hq.
  destruct Hd as [-> | [t ->]]; [eauto |].
  destruct t; cbn; eauto.
Qed.

(** X5: for a create with a name that is a string and not empty, a
    description that is absent, falsy or a string, and an insert that goes
    through: a price given as a string that [Number] reads as a decimal
    literal (not blank, not a binary, octal or hexadecimal literal) with a
    value that is not below zero is stored as that very value, what
    [parseFloat] reads being what was checked; the create is answered 201
    with that document, whose name is the trimmed name. *)
Theorem decimal_price_is_stored_as_checked `{JSON} (env : Env) (w : World)
    (n s : jsstring) (d : value) :
  n <> [] ->
  trim s <> [] ->
  scan_non_decimal (trim s) = None ->
  number_isNaN (StringToNumber s) = false ->
  number_lt (StringToNumber s) zero = false ->
  ToBoolean d = false \/ (exists t, d = VString t) ->
  save_error env = None ->
  let run :=
    post_products env
      {| body_name := VString n; body_price := VString s; body_description := d |} w in
  exists doc,
    result run = Normal (created doc)
    /\ price doc = StringToNumber s
    /\ name doc = trim n
    /\ products (final run) = products w ++ [doc].
Proof.
  intros Hn Ht Hnd Hnan Hlt Hd Hsave. cbv zeta.
  assert (Hs : s <> []) by (intros ->; now apply Ht).
  assert (Hq : parseFloat_string s = StringToNumber s).
  { destruct (number_against_parseFloat s Hnan) as [[E _] | [[[q E] _] | (_ & _ & E)]];
      [contradiction | congruence | exact E]. }
  destruct (check_string_price n s d _ Hn Hs Hnan Hlt Hq Hd) as [desc Hc].
  rewrite post_products_unfolds. unfold post_products_tree. rewrite Hc.
  destruct (persist_created env (trim n) (StringToNumber s) desc w Hnan Hsave)
    as (Hr & Hp & _).
  eexists. repeat split; [exact Hr | reflexivity | reflexivity | exact Hp].
Qed.

Lemma decimal_price_is_stored_as_checked_witness :
  (js "Widget" <> [] /\ trim (js " 9.99 ") <> []
   /\ scan_non_decimal (trim (js " 9.99 ")) = None
   /\ number_isNaN (StringToNumber (js " 9.99 ")) = false
   /\ number_lt (StringToNumber (js " 9.99 ")) zero = false)
  /\ forall J : JSON,
       exists doc,
         products (final (post_products (quiet 2%N)
                            (create (js "Widget") (VString (js " 9.99 "))) bare)) = [doc]
         /\ price doc = decimal_to_number false 999 (-2).
Proof.
  assert (Hn : js "Widget" <> []) by discriminate.
  assert (Ht : trim (js " 9.99 ") <> []) by (vm_compute; discriminate).
  split; [repeat split; (exact Hn || exact Ht || (vm_compute; reflexivity)) |].
  intros J.
  destruct (decimal_price_is_stored_as_checked (quiet 2%N) bare (js "Widget") (js " 9.99 ")
              VUndefined Hn Ht eq_refl eq_refl eq_refl (or_introl eq_refl) eq_refl)
    as (doc & _ & Hprice & _ & Hdocs).
  exists doc. split; [exact Hdocs |]. rewrite Hprice. vm_compute. reflexivity.
Defined.

(** X6: a price given as a binary, octal or hexadecimal literal passes the
    checks, which see the value of the literal, and is stored as 0, which
    is what [parseFloat] reads: the leading zero. *)
Theorem non_decimal_price_is_stored_as_zero `{JSON} (env : Env) (w : World)
    (n s : jsstring) (d : value) (q : number) :
  n <> [] ->
  scan_non_decimal (trim s) = Some q ->
  ToBoolean d = false \/ (exists t, d = VString t) ->
  save_error env = None ->
  let run :=
    post_products env
      {| body_name := VString n; body_price := VString s; body_description := d |} w in
  StringToNumber s = q
  /\ exists doc,
       result run = Normal (created doc)
       /\ price doc = zero
       /\ products (final run) = products w ++ [doc].
Proof.
  intros Hn Hq Hd Hsave. cbv zeta.
  destruct (parseFloat_of_non_decimal s q Hq) as [Hpf Hsigned].
  destruct (unsigned_not_below_zero q Hsigned) as [Hnan Hlt].
  assert (Hnum : StringToNumber s = q).
  { unfold StringToNumber. destruct (trim s) as [| a t]; [discriminate Hq |].
    now rewrite Hq. }
  assert (Hs : s <> []) by (intros ->; discriminate Hq).
  rewrite <- Hnum in Hnan, Hlt.
  destruct (check_string_price n s d zero Hn Hs Hnan Hlt Hpf Hd) as [desc Hc].
  split; [exact Hnum |].
  rewrite post_products_unfolds. unfold post_products_tree. rewrite Hc.
  destruct (persist_created env (trim n) zero desc w eq_refl Hsave) as (Hr & Hp & _).
  eexists. repeat split; [exact Hr | reflexivity | exact Hp].
Qed.

Lemma non_decimal_price_is_stored_as_zero_witness :
  (js "Widget" <> [] /\ scan_non_decimal (trim (js "0x1F")) = Some (number_of_Z 31))
  /\ forall J : JSON,
       StringToNumber (js "0x1F") = number_of_Z 31
       /\ exists doc,
            products (final (post_products (quiet 2%N)
                               (create (js "Widget") (VString (js "0x1F"))) bare)) = [doc]
            /\ price doc = zero.
Proof.
  assert (Hn : js "Widget" <> []) by discriminate.
  assert (Hq : scan_non_decimal (trim (js "0x1F")) = Some (number_of_Z 31))
    by (vm_compute; reflexivity).
  split; [split; [exact Hn | exact Hq] |].
  intros J.
  destruct (non_decimal_price_is_stored_as_zero (quiet 2%N) bare (js "Widget") (js "0x1F")
              VUndefined (number_of_Z 31) Hn Hq (or_introl eq_refl) eq_refl)
    as (Hnum & doc & _ & Hprice & Hdocs).
  split; [exact Hnum |]. exists doc. split; assumption.
Defined.

(** ** The routes and the cache *)

Lemma handle_unfolds `{JSON} (env : Env) (r : Request) (w : World) :
  handle env r w
  = match r with
    | GET => get_products_tree env w
    | POST req => post_products_tree env req w
    end.
Proof. destruct r; [apply get_products_unfolds | apply post_products_unfolds]. Qed.

(** X7: while there is no client, or the client is not ready, neither route
    makes any call to Redis or changes what Redis holds, and the response
    and the collection afterwards are the same whatever Redis holds. *)
Theorem no_cache_without_a_ready_client `{JSON} (env : Env) (r : Request) (w : World)
    (keys : gmap jsstring Entry) :
  redis_ready w = false ->
  let run := handle env r w in
  Forall (fun c => is_redis_call c = false) (calls run)
  /\ redis (final run) = redis w
  /\ result (handle env r (with_keys keys w)) = result run
  /\ products (final (handle env r (with_keys keys w))) = products (final run).
Proof.
  intros Hr. cbv zeta. rewrite !handle_unfolds.
  assert (Hr' : redis_ready (with_keys keys w) = false) by exact Hr.
  destruct r as [| req].
  - unfold get_products_tree, cache_lookup, lookup_calls. rewrite Hr, Hr'. cbn.
    destruct (find_error env); cbn; repeat split; repeat constructor.
  - unfold post_products_tree. destruct (check req) as [[res | nm pr desc] | e];
      [cbn; repeat split; constructor | | cbn; repeat split; constructor].
    unfold persist. rewrite Hr, Hr'.
    destruct (number_isNaN pr); [cbn; repeat split; constructor |].
    destruct (save_error env); cbn; repeat split; repeat constructor.
Qed.

Lemma no_cache_without_a_ready_client_witness :
  redis_ready offline = false
  /\ forall J : JSON,
       calls (handle (quiet 2%N) (POST (create (js "Gadget") (VNumber one))) offline)
       = [MongoInsert {| _id := 2%N; name := js "Gadget"; price := one; description := [] |}]
       /\ redis (final (handle (quiet 2%N) (POST (create (js "Gadget") (VNumber one))) offline))
          = redis offline.
Proof.
  split; [reflexivity |]. intros J. split; [reflexivity |].
  exact (proj1 (proj2 (no_cache_without_a_ready_client (quiet 2%N)
           (POST (create (js "Gadget") (VNumber one))) offline ∅ eq_refl))).
Defined.

(** X8: the create route never reads the cache: it makes no [get], and its
    response, the collection it leaves and the round trips it makes are the
    same whatever Redis holds. *)
Theorem create_never_reads_the_cache `{JSON} (env : Env) (req : CreateBody) (w : World)
    (keys : gmap jsstring Entry) :
  let run := post_products env req w in
  let run' := post_products env req (with_keys keys w) in
  (forall k, RedisGet k ∉ calls run)
  /\ result run' = result run
  /\ products (final run') = products (final run)
  /\ calls run' = calls run.
Proof.
  cbv zeta. rewrite !post_products_unfolds. unfold post_products_tree.
  destruct (check req) as [[res | nm pr desc] | e];
    [cbn; repeat split; intros k Hk; apply elem_of_nil in Hk; contradiction |
     | cbn; repeat split; intros k Hk; apply elem_of_nil in Hk; contradiction].
  unfold persist.
  change (redis_ready (with_keys keys w)) with (redis_ready w).
  destruct (number_isNaN pr), (save_error env), (redis_ready w), (find_error env),
    (set_error env); cbn; repeat split; intros k Hk; set_unfold; naive_solver.
Qed.

(** X9: through any history of requests, client changes and expiries, the
    keys of Redis other than the listing key hold what they held. *)
Theorem other_keys_are_left_alone `{JSON} (history : list Event) (w : World)
    (k : jsstring) :
  k <> cacheKey -> redis (after history w) !! k = redis w !! k.
Proof.
  intros Hk. revert w. induction history as [| ev history IH]; intros w; [reflexivity |].
  unfold after in *. cbn [fold_left]. rewrite IH.
  destruct ev as [env r | c |]; cbn [step].
  - destruct (handle_frame env r w) as (_ & _ & [-> | ->]); [reflexivity |].
    apply lookup_insert_ne. congruence.
  - reflexivity.
  - cbn. apply lookup_delete_ne. congruence.
Qed.

Lemma other_keys_are_left_alone_witness :
  js "sessions" <> cacheKey
  /\ forall J : JSON,
       redis (after [Served (quiet 2%N) (POST (create (js "Gadget") (VNumber one)));
                     Expired; Served (quiet 3%N) GET]
                (cached (js "[]"))) !! js "sessions"
       = None.
Proof.
  assert (Hk : js "sessions" <> cacheKey) by discriminate.
  split; [exact Hk |]. intros J.
  rewrite (other_keys_are_left_alone _ (cached (js "[]")) (js "sessions") Hk).
  reflexivity.
Defined.

(** X10: the service never removes, changes or reorders a document: through
    any history, the collection of before is an initial segment of the
    collection of after. *)
Theorem documents_are_only_appended `{JSON} (history : list Event) (w : World) :
  products w `prefix_of` products (after history w).
Proof.
  revert w. induction history as [| ev history IH]; intros w; [reflexivity |].
  unfold after in *. cbn [fold_left]. etrans; [| apply IH].
  destruct ev as [env r | c |]; cbn [step]; [| reflexivity | reflexivity].
  exact (proj1 (handle_frame env r w)).
Qed.

(** ** One request after another *)

(** A listing in a state where the client is ready, the cache read goes
    through and the listing key holds a string that is not empty. *)
Lemma listing_hit `{JSON} (env : Env) (w : World) (e : Entry) (c : N) (s : jsstring) :
  redis_ready w = true -> get_error env = None ->
  redis w !! cacheKey = Some e -> entry_value e = c :: s ->
  get_products env w = (Normal (serve_cached (c :: s)), w, [RedisGet cacheKey]).
Proof.
  intros Hr Hg He Hv. rewrite get_products_unfolds.
  unfold get_products_tree, cache_lookup, lookup_calls.
  rewrite Hr, Hg, He. cbn. rewrite Hv. reflexivity.
Qed.

(** X11: once a request has written the cache, the next listing is
    answered from what it wrote, which is the serialization of the
    collection as the request left it: the store is not asked and the state
    stays as it is. *)
Theorem a_cache_write_serves_the_next_listing `{JSON} (env env' : Env) (r : Request)
    (w : World) (k v : jsstring) (ex : Z) :
  RedisSet k v ex ∈ calls (handle env r w) ->
  set_error env = None ->
  get_error env' = None ->
  v <> [] ->
  let w1 := final (handle env r w) in
  v = JSON_stringify (products w1)
  /\ get_products env' w1 = (Normal (serve_cached v), w1, [RedisGet cacheKey]).
Proof.
  intros Hin Hset Hget Hv. cbv zeta.
  assert (Hw : redis_ready (final (handle env r w)) = true
               /\ v = JSON_stringify (products (final (handle env r w)))
               /\ redis (final (handle env r w)) !! cacheKey
                  = Some {| entry_value := v; entry_EX := Some 3600 |}).
  { revert Hin. rewrite handle_unfolds. destruct r as [| req].
    - unfold get_products_tree, cache_lookup, lookup_calls.
      destruct (redis_ready w) eqn:Hr; cbn;
        repeat case_match; cbn; rewrite ?Hset; intros Hin; set_unfold;
        destruct_or?; simplify_eq; try done;
        (split; [exact Hr | split; [reflexivity | apply lookup_insert_eq]]).
    - unfold post_products_tree.
      destruct (check req) as [[res | nm pr desc] | e]; cbn;
        [intros Hin; set_unfold; done | | intros Hin; set_unfold; done].
      unfold persist.
      destruct (redis_ready w) eqn:Hr;
        repeat case_match; cbn; rewrite ?Hset; intros Hin; set_unfold;
        destruct_or?; simplify_eq; try done;
        (split; [exact Hr | split; [reflexivity | apply lookup_insert_eq]]). }
  destruct Hw as (Hr & Hval & He). split; [exact Hval |].
  destruct v as [| c s]; [congruence |].
  exact (listing_hit env' _ _ c s Hr Hget He eq_refl).
Qed.

Lemma a_cache_write_serves_the_next_listing_witness :
  (RedisSet cacheKey (@JSON_stringify names_only [widget]) 3600
     ∈ calls (@handle names_only (quiet 2%N) GET (cached []))
   /\ set_error (quiet 2%N) = None /\ get_error (quiet 3%N) = None
   /\ @JSON_stringify names_only [widget] <> [])
  /\ @get_products names_only (quiet 3%N)
       (final (@handle names_only (quiet 2%N) GET (cached [])))
     = (Normal (json_response 200
                  (Success (Parsed (JStr (@JSON_stringify names_only [widget])))
                     (js "Products retrieved from cache"))),
        final (@handle names_only (quiet 2%N) GET (cached [])),
        [RedisGet cacheKey]).
Proof.
  assert (Hin : RedisSet cacheKey (@JSON_stringify names_only [widget]) 3600
                  ∈ calls (@handle names_only (quiet 2%N) GET (cached []))).
  { apply list_elem_of_further, list_elem_of_further, list_elem_of_here. }
  assert (Hv : @JSON_stringify names_only [widget] <> []) by discriminate.
  split; [repeat split; [exact Hin | exact Hv] |].
  exact (proj2 (@a_cache_write_serves_the_next_listing names_only (quiet 2%N) (quiet 3%N)
                  GET (cached []) cacheKey _ 3600 Hin eq_refl eq_refl Hv)).
Defined.

(** X12: a create that goes through while the client is not ready leaves
    the entry under the listing key as it was.  Once the client is ready
    again a listing is answered from that entry, without a query to the
    store, although the collection has one document more than when the
    entry was written. *)
Theorem a_create_without_the_client_leaves_the_listing_stale `{JSON} (env env' : Env)
    (req : CreateBody) (w : World) (e : Entry) (c : N) (s : jsstring) (doc : Product) :
  redis_ready w = false ->
  redis w !! cacheKey = Some e ->
  entry_value e = c :: s ->
  result (post_products env req w) = Normal (created doc) ->
  get_error env' = None ->
  let w1 :=
    after [Served env (POST req); ClientBecomes (Some {| isReady := true |})] w in
  products w1 = products w ++ [doc]
  /\ redis w1 = redis w
  /\ get_products env' w1 = (Normal (serve_cached (c :: s)), w1, [RedisGet cacheKey]).
Proof.
  intros Hr He Hv Hres Hget. cbv zeta.
  unfold after. cbn [fold_left step handle].
  assert (Hw : products (final (post_products env req w)) = products w ++ [doc]
               /\ redis (final (post_products env req w)) = redis w).
  { revert Hres. rewrite post_products_unfolds. unfold post_products_tree.
    destruct (check req) as [[res | nm pr desc] | e0] eqn:Hc; cbn.
    - destruct (check_refused req res Hc) as (msg & ->). discriminate.
    - unfold persist. rewrite Hr.
      destruct (number_isNaN pr);
        [cbn; intros [= Hx];
         destruct (catch_create_fails price_cast_error) as (code & msg & E & _);
         rewrite E in Hx; discriminate Hx |].
      destruct (save_error env) as [e1 |]; cbn.
      + intros [= Hx]. destruct (catch_create_fails e1) as (code & msg & E & _).
        rewrite E in Hx. discriminate Hx.
      + unfold created, json_response. intros [= <-]. split; reflexivity.
    - intros [= Hx]. destruct (catch_create_fails e0) as (code & msg & E & _).
      rewrite E in Hx. discriminate Hx. }
  destruct Hw as (Hp & Hk). cbn [products redis]. split; [exact Hp |].
  split; [exact Hk |].
  apply (listing_hit env' _ e c s); [reflexivity | exact Hget | | exact Hv].
  cbn [redis]. rewrite Hk. exact He.
Qed.

Lemma a_create_without_the_client_leaves_the_listing_stale_witness :
  (redis_ready offline = false
   /\ redis offline !! cacheKey = Some {| entry_value := js "[]"; entry_EX := Some 3600 |}
   /\ get_error (quiet 3%N) = None)
  /\ forall J : JSON,
       result (post_products (quiet 2%N) (create (js "Gadget") (VNumber one)) offline)
       = Normal (created {| _id := 2%N; name := js "Gadget"; price := one;
                            description := [] |})
       /\ calls (get_products (quiet 3%N)
                   (after [Served (quiet 2%N) (POST (create (js "Gadget") (VNumber one)));
                           ClientBecomes (Some {| isReady := true |})] offline))
          = [RedisGet cacheKey].
Proof.
  split; [repeat split |]. intros J. split; [reflexivity |].
  exact (f_equal snd (proj2 (proj2
    (a_create_without_the_client_leaves_the_listing_stale (quiet 2%N) (quiet 3%N)
       (create (js "Gadget") (VNumber one)) offline
       {| entry_value := js "[]"; entry_EX := Some 3600 |} 91%N [93%N]
       {| _id := 2%N; name := js "Gadget"; price := one; description := [] |}
       eq_refl eq_refl eq_refl eq_refl eq_refl)))).
Defined.

(** X13: when the listing key holds text that [JSON.parse] refuses, a
    listing is answered 500 with the message of the parser's error, the
    store is not asked and nothing is changed; so every further listing
    that reads the cache is answered the same, until the key expires or a
    create rewrites it. *)
Theorem an_unreadable_payload_fails_every_listing `{JSON} (w : World) (e : Entry)
    (c : N) (s : jsstring) (err : Error) (envs : list Env) :
  redis_ready w = true ->
  redis w !! cacheKey = Some e ->
  entry_value e = c :: s ->
  JSON_parse (c :: s) = Throw err ->
  Forall (fun env => get_error env = None) envs ->
  Forall (fun env =>
            get_products env w
            = (Normal (json_response 500 (Failure (err_message err))), w,
               [RedisGet cacheKey])) envs
  /\ after (map (fun env => Served env GET) envs) w = w.
Proof.
  intros Hr He Hv Hparse Hall.
  assert (Hone : forall env, get_error env = None ->
            get_products env w
            = (Normal (json_response 500 (Failure (err_message err))), w,
               [RedisGet cacheKey])).
  { intros env Hg. rewrite (listing_hit env w e c s Hr Hg He Hv).
    unfold serve_cached. rewrite Hparse. reflexivity. }
  split.
  - eapply Forall_impl; [exact Hall | exact Hone].
  - induction Hall as [| env envs Hg _ IH]; [reflexivity |].
    unfold after in *. cbn [map fold_left step handle].
    rewrite (Hone env Hg). exact IH.
Qed.

Lemma an_unreadable_payload_fails_every_listing_witness :
  (redis_ready corrupt = true
   /\ redis corrupt !! cacheKey
      = Some {| entry_value := js "<html>"; entry_EX := Some 3600 |}
   /\ @JSON_parse names_only (js "<html>") = Throw SyntaxError
   /\ Forall (fun env => get_error env = None) [quiet 2%N; find_fails 3%N])
  /\ @after names_only [Served (quiet 2%N) GET; Served (find_fails 3%N) GET] corrupt
     = corrupt.
Proof.
  assert (Hall : Forall (fun env => get_error env = None) [quiet 2%N; find_fails 3%N]).
  { repeat constructor. }
  split; [repeat split; exact Hall |].
  exact (proj2 (@an_unreadable_payload_fails_every_listing names_only corrupt
                  {| entry_value := js "<html>"; entry_EX := Some 3600 |}
                  60%N (js "html>") SyntaxError [quiet 2%N; find_fails 3%N]
                  eq_refl eq_refl eq_refl eq_refl Hall)).
Defined.

(** ** What the collection holds *)

(** What a request adds to the collection: nothing, or one document in good
    order. *)
Lemma handle_adds `{JSON} (env : Env) (r : Request) (w : World) :
  exists added,
    products (final (handle env r w)) = products w ++ added
    /\ Forall (fun doc => in_good_order doc = true) added.
Proof.
  rewrite handle_unfolds. destruct r as [| req].
  - exists []. rewrite app_nil_r. split; [| constructor].
    unfold get_products_tree. repeat case_match; reflexivity.
  - unfold post_products_tree.
    destruct (check req) as [[res | nm pr desc] | e] eqn:Hc;
      try (exists []; rewrite app_nil_r; split; [reflexivity | constructor]).
    destruct (check_accepted req nm pr desc Hc)
      as (_ & Hnan & Hlt & Hpf & (n & _ & _ & ->) & Hdesc).
    unfold persist.
    destruct (number_isNaN pr) eqn:Hpr;
      [exists []; rewrite app_nil_r; split; [reflexivity | constructor] |].
    destruct (save_error env);
      [exists []; rewrite app_nil_r; split; [reflexivity | constructor] |].
    exists [{| _id := new_ObjectId env; name := trim n; price := pr; description := desc |}].
    split; [repeat case_match; reflexivity |].
    constructor; [| constructor].
    unfold in_good_order. cbn [name description price].
    rewrite tidy_trim.
    replace (tidy desc) with true
      by (destruct Hdesc as [[_ ->] | (d & _ & ->)]; [reflexivity | symmetry; apply tidy_trim]).
    cbn. apply not_below_zero; [exact Hpr |].
    exact (accepted_price _ _ Hnan Hlt Hpf).
Qed.

(** X14: through any history of requests, client changes and expiries,
    the collection is what it was followed by the documents added, each of
    which is in good order: a name and a description with no white space
    at either end, and a price that is a number and is not below zero. *)
Theorem added_documents_are_in_good_order `{JSON} (history : list Event) (w : World) :
  exists added,
    products (after history w) = products w ++ added
    /\ Forall (fun doc => in_good_order doc = true) added.
Proof.
  revert w. induction history as [| ev history IH]; intros w.
  - exists []. rewrite app_nil_r. split; [reflexivity | constructor].
  - unfold after in *. cbn [fold_left].
    destruct (IH (step w ev)) as (l2 & E2 & H2).
    assert (Hstep : exists l1, products (step w ev) = products w ++ l1
                               /\ Forall (fun doc => in_good_order doc = true) l1).
    { destruct ev as [env r | c |]; cbn [step];
        [apply handle_adds | |]; exists []; rewrite app_nil_r;
        split; first [reflexivity | constructor]. }
    destruct Hstep as (l1 & E1 & H1).
    exists (l1 ++ l2). rewrite E2, E1, app_assoc. split; [reflexivity |].
    apply Forall_app. split; assumption.
Qed.

(** ** Start of the process *)

(** X15: the delay before the next attempt to reconnect grows by 50 ms
    with each attempt and stays at one second from the twentieth on. *)
Theorem reconnect_delay_is_capped (retries : Z) :
  reconnectStrategy retries <= 1000
  /\ (retries <= 20 -> reconnectStrategy retries = retries * 50)
  /\ (20 <= retries -> reconnectStrategy retries = 1000)
  /\ (0 <= retries -> 0 <= reconnectStrategy retries)
  /\ (forall later, retries <= later ->
        reconnectStrategy retries <= reconnectStrategy later).
Proof. unfold reconnectStrategy. repeat split; intros; lia. Qed.

(** Without a client no happening brings one, and no request calls Redis. *)
Lemma serve_without_client `{JSON} (hs : list Happening) (w : World) :
  redisClient w = None ->
  redisClient (serve hs w).1 = None
  /\ Forall (fun c => is_redis_call c = false) (serve hs w).2.
Proof.
  revert w. induction hs as [| h hs IH]; intros w Hw; [split; [exact Hw | constructor] |].
  cbn [serve].
  assert (Hnext : redisClient (step w (event_at w h)) = None).
  { destruct h as [env r | up |]; cbn [event_at step redisClient].
    - rewrite (proj1 (proj2 (handle_frame env r w))). exact Hw.
    - rewrite Hw. reflexivity.
    - exact Hw. }
  destruct (IH _ Hnext) as [Hc Hl].
  destruct (serve hs (step w (event_at w h))) as [w' l]. cbn [fst snd] in *.
  split; [exact Hc |]. apply Forall_app. split; [| exact Hl].
  destruct h as [env r | up |]; [| constructor | constructor].
  assert (Hr : redis_ready w = false) by (unfold redis_ready; rewrite Hw; reflexivity).
  rewrite handle_unfolds. destruct r as [| req].
  - unfold get_products_tree, cache_lookup, lookup_calls. rewrite Hr. cbn.
    destruct (find_error env); repeat constructor.
  - unfold post_products_tree. destruct (check req) as [[res | nm pr desc] | e];
      [constructor | | constructor].
    unfold persist. rewrite Hr.
    destruct (number_isNaN pr); [constructor |].
    destruct (save_error env); repeat constructor.
Qed.

(** X16: the process exits with code 1 when MongoDB cannot be connected
    to, before Redis is tried.  Otherwise it waits for the first connection
    to Redis: as long as that is pending, which is for ever when Redis
    cannot be reached, the server does not listen.  It listens, on the port
    of the environment or 3000, with both backends as they were, once the
    connection is made, and then the client is ready; or when the [try]
    block throws, and then there is no client for as long as the process
    runs: whatever requests come in and whatever happens, no request makes
    a call to Redis. *)
Theorem the_cache_is_decided_at_startup `{JSON} (b : Boot) (w : World) :
  match startServer b w with
  | Exited code => code = 1 /\ mongoose_connect b <> None
  | Waiting => mongoose_connect b = None /\ client_connect b = Pending
  | Listening port w0 =>
      mongoose_connect b = None
      /\ port = PORT b
      /\ products w0 = products w
      /\ redis w0 = redis w
      /\ ((client_connect b = Resolved /\ redis_ready w0 = true)
          \/ ((exists e, client_connect b = Thrown e)
              /\ forall hs,
                   redisClient (serve hs w0).1 = None
                   /\ Forall (fun c => is_redis_call c = false) (serve hs w0).2))
  end.
Proof.
  unfold startServer, connectMongoDB, connectRedis.
  destruct (mongoose_connect b) as [e |]; [split; [reflexivity | discriminate] |].
  destruct (client_connect b) as [| e |]; [| | split; reflexivity].
  - repeat (split; [reflexivity |]). left. split; reflexivity.
  - repeat (split; [reflexivity |]). right. split; [exists e; reflexivity |].
    intros hs. apply serve_without_client. reflexivity.
Qed.

(** ** A price that passes the checks and cannot be read *)

(** A string of white space only is such a price: [Number] reads it as 0,
    [parseFloat] does not read it. *)
Lemma blank_price (s : jsstring) :
  s <> [] -> trim s = [] ->
  ToBoolean (VString s) = true
  /\ isNaN (VString s) = Normal false
  /\ lt_zero (VString s) = Normal false
  /\ parseFloat (VString s) = Normal NaN.
Proof.
  intros Hs Ht. unfold isNaN, lt_zero, ToNumber, StringToNumber, parseFloat,
    parseFloat_string.
  rewrite Ht, (trim_nil_start s Ht).
  destruct s; [congruence |]. repeat split.
Qed.

(** X17: a price that is truthy, that [Number] reads as a number not below
    zero and that [parseFloat] reads as [NaN] (a string of white space
    only, [true]) passes both checks of the route and is refused by the
    schema when the document is saved: the answer is 400 with a validation
    error, not the message about the price, nothing is sent to either
    backend and nothing is written. *)
Theorem unreadable_price_is_refused_by_the_schema `{JSON} (env : Env) (w : World)
    (n : jsstring) (p d : value) :
  n <> [] ->
  ToBoolean p = true ->
  isNaN p = Normal false ->
  lt_zero p = Normal false ->
  parseFloat p = Normal NaN ->
  ToBoolean d = false \/ (exists t, d = VString t) ->
  post_products env {| body_name := VString n; body_price := p; body_description := d |} w
  = (Normal (json_response 400
               (Failure (js "Validation error: " ++ err_message price_cast_error))),
     w, []).
Proof.
  intros Hn Hp Hnan Hlt Hpf Hd. rewrite post_products_unfolds.
  unfold post_products_tree, check. cbn [body_name body_price body_description].
  rewrite Hp, Hnan, Hlt, Hpf.
  destruct n as [| c n]; [congruence |]. cbn [ToBoolean negb orb call_trim].
  destruct Hd as [Hd | (t & ->)].
  - rewrite Hd. reflexivity.
  - destruct (ToBoolean (VString t)); reflexivity.
Qed.

Lemma unreadable_price_is_refused_by_the_schema_witness :
  (js "Widget" <> []
   /\ ToBoolean (VString (js "  ")) = true
   /\ isNaN (VString (js "  ")) = Normal false
   /\ lt_zero (VString (js "  ")) = Normal false
   /\ parseFloat (VString (js "  ")) = Normal NaN
   /\ ToBoolean VUndefined = false)
  /\ forall J : JSON,
       result (post_products (quiet 2%N)
                 (create (js "Widget") (VString (js "  "))) (cached (js "[]")))
       = Normal (json_response 400
                   (Failure (js "Validation error: " ++ err_message price_cast_error)))
       /\ calls (post_products (quiet 2%N)
                   (create (js "Widget") (VString (js "  "))) (cached (js "[]"))) = [].
Proof.
  assert (Hn : js "Widget" <> []) by discriminate.
  assert (Hs : js "  " <> []) by discriminate.
  destruct (blank_price (js "  ") Hs eq_refl) as (Hb & Hnan & Hlt & Hpf).
  split; [repeat split; assumption |].
  intros J.
  rewrite (unreadable_price_is_refused_by_the_schema (quiet 2%N) (cached (js "[]"))
             (js "Widget") (VString (js "  ")) VUndefined Hn Hb Hnan Hlt Hpf
             (or_introl eq_refl)).
  split; reflexivity.
Defined.
